(** * EduPal: the response cleaner, the quiz parser and the request router

    A shallow embedding of [src/app.py] (ResponseCleaner, APIClient response
    extraction, UIManager._parse_quiz_questions) and of [src/EduPal.py]
    (PDFProcessor, AIResponseHandler, ResponseBuilder, EduPalAIService,
    lambda_handler), followed by the properties of the specification that
    were checked against them. *)

From Stdlib Require Import List NArith ZArith Bool Arith Lia String Ascii.
Import ListNotations.

Set Implicit Arguments.

(** ** Python strings

    A Python [str] is a sequence of Unicode code points.  The pattern of the
    cleaner holds the code point U+2019, so bytes would not do. *)

Definition codepoint := N.
Definition pystr := list codepoint.

Open Scope N_scope.

(** A literal of the source, written with ASCII characters only. *)
Fixpoint py (s : string) : pystr :=
  match s with
  | EmptyString => []
  | String a r => N_of_ascii a :: py r
  end.

Definition cp_eqb (a b : codepoint) : bool := N.eqb a b.

Fixpoint pystr_eqb (a b : pystr) : bool :=
  match a, b with
  | [], [] => true
  | x :: a', y :: b' => cp_eqb x y && pystr_eqb a' b'
  | _, _ => false
  end.

(** [between lo hi c]: lo <= c <= hi. *)
Definition between (lo hi c : codepoint) : bool := (lo <=? c) && (c <=? hi).

Definition is_ascii (c : codepoint) : bool := c <? 128.
Definition ascii_islower (c : codepoint) : bool := between 97 122 c.
Definition ascii_isupper (c : codepoint) : bool := between 65 90 c.
Definition ascii_lower (c : codepoint) : codepoint :=
  if ascii_isupper c then c + 32 else c.
Definition ascii_upper (c : codepoint) : codepoint :=
  if ascii_islower c then c - 32 else c.

(** The code points CPython treats as whitespace ([str.isspace], [str.strip]
    and the [\s] of [re] on [str] patterns all use the same table). *)
Definition isspace (c : codepoint) : bool :=
  between 9 13 c || between 28 32 c || (c =? 133) || (c =? 160)
  || (c =? 5760) || between 8192 8202 c || (c =? 8232) || (c =? 8233)
  || (c =? 8239) || (c =? 8287) || (c =? 12288).

(** Case tables of the Python runtime outside ASCII.  Inside ASCII the
    functions below are exact; what [str.islower], [str.upper] and
    [str.lower] do elsewhere is left to the table. *)
Record Unicode := {
  unicode_islower : codepoint -> bool;
  unicode_upper : codepoint -> pystr;
  unicode_lower : pystr -> pystr
}.

Section Str.
Variable U : Unicode.

(** [c.islower()] for a one-character string. *)
Definition islower (c : codepoint) : bool :=
  if is_ascii c then ascii_islower c else unicode_islower U c.

(** [c.upper()] for a one-character string (it may give several
    characters outside ASCII). *)
Definition upper (c : codepoint) : pystr :=
  if is_ascii c then [ascii_upper c] else unicode_upper U c.

(** [s.lower()].  Outside ASCII the mapping depends on the context of a
    character, so the table takes the string. *)
Definition lower (s : pystr) : pystr :=
  if forallb is_ascii s then map ascii_lower s else unicode_lower U s.
End Str.

(** [s.lstrip()], [s.rstrip()], [s.strip()]. *)
Fixpoint lstrip (s : pystr) : pystr :=
  match s with
  | c :: t => if isspace c then lstrip t else s
  | [] => []
  end.

Definition rstrip (s : pystr) : pystr := rev (lstrip (rev s)).
Definition strip (s : pystr) : pystr := rstrip (lstrip s).

(** [s.startswith(p)]. *)
Fixpoint startswith (s p : pystr) : bool :=
  match p, s with
  | [], _ => true
  | x :: p', c :: s' => cp_eqb x c && startswith s' p'
  | _ :: _, [] => false
  end.

(** [s.split('\n')]: never empty, one more piece than separators. *)
Fixpoint split_on (sep : codepoint) (s : pystr) : list pystr :=
  match s with
  | [] => [[]]
  | c :: t =>
      if cp_eqb c sep then [] :: split_on sep t
      else match split_on sep t with
           | l :: ls => (c :: l) :: ls
           | [] => [[c]]
           end
  end.

(** Decimal rendering of a number, as [f'{n}'] gives it. *)
Fixpoint digits_aux (fuel : nat) (n : N) (acc : pystr) : pystr :=
  match fuel with
  | O => acc
  | S f =>
      let acc' := (48 + n mod 10) :: acc in
      if n / 10 =? 0 then acc' else digits_aux f (n / 10) acc'
  end.

Definition str_of_N (n : N) : pystr := digits_aux (S (N.to_nat (N.log2 n))) n [].

(** ** Regular expressions, as [re] runs them

    The constructs the patterns of the cleaner use.  A match is searched by
    backtracking: [rmatch] lists, in the order the engine tries them, the
    suffixes left after each way of matching at the head of the subject; the
    first one is the match [re] finds. *)

Inductive cset_item :=
| CChar (c : codepoint)
| CRange (lo hi : codepoint)
| CSpace.

Inductive regex :=
| Lit (c : codepoint)
| Dot
| CSet (cs : list cset_item)
| Seq (r1 r2 : regex)
| Alt (r1 r2 : regex)
| Opt (r : regex)
| Star (r : regex)
| StarLazy (r : regex)
| Bol
| Eps.

(** [r+] is [r r*]. *)
Definition Plus (r : regex) : regex := Seq r (Star r).

(** The characters of a word, one after the other. *)
Fixpoint lits (w : pystr) : regex :=
  match w with
  | [] => Eps
  | c :: w' => Seq (Lit c) (lits w')
  end.

Record flags := { IGNORECASE : bool; DOTALL : bool }.

(** Simple lower-casing as the engine applies it to a subject character
    under IGNORECASE.  Only code points whose lower case is an ASCII letter
    are mapped: a pattern whose cased characters are ASCII sees no other. *)
Definition sre_lower (c : codepoint) : codepoint :=
  if ascii_isupper c then c + 32
  else if c =? 304 then 105
  else if c =? 8490 then 107
  else c.

Definition item_has (c : codepoint) (i : cset_item) : bool :=
  match i with
  | CChar x => cp_eqb x c
  | CRange lo hi => between lo hi c
  | CSpace => isspace c
  end.

Definition cset_has (cs : list cset_item) (c : codepoint) : bool :=
  existsb (item_has c) cs.

(** Membership under the flags.  With IGNORECASE the compiled set also holds
    the case "fixes" of its members: dotless i (U+0131) beside [i] and long s
    (U+017F) beside [s]. *)
Definition cset_match (fl : flags) (cs : list cset_item) (c : codepoint) : bool :=
  if IGNORECASE fl then
    let l := sre_lower c in
    cset_has cs l
    || (cset_has cs 105 && (l =? 305))
    || (cset_has cs 115 && (l =? 383))
  else cset_has cs c.

Definition lit_match (fl : flags) (p c : codepoint) : bool :=
  if IGNORECASE fl then cset_match fl [CChar (sre_lower p)] c else cp_eqb p c.

Definition dot_match (fl : flags) (c : codepoint) : bool :=
  DOTALL fl || negb (c =? 10).

(** Repetition of a sub-pattern [m]: each round must consume something. *)
Fixpoint star_iter (m : pystr -> list pystr) (greedy : bool) (fuel : nat)
    (s : pystr) : list pystr :=
  match fuel with
  | O => [s]
  | S f =>
      let more :=
        flat_map (fun s' =>
                    if (List.length s' <? List.length s)%nat
                    then star_iter m greedy f s' else [])
                 (m s) in
      if greedy then more ++ [s] else s :: more
  end.

(** [rmatch fl n r s]: [n] is the length of the whole subject, so that [^]
    can tell whether [s] starts at its beginning. *)
Fixpoint rmatch (fl : flags) (n : nat) (r : regex) (s : pystr) : list pystr :=
  match r with
  | Lit p =>
      match s with
      | c :: t => if lit_match fl p c then [t] else []
      | [] => []
      end
  | Dot =>
      match s with
      | c :: t => if dot_match fl c then [t] else []
      | [] => []
      end
  | CSet cs =>
      match s with
      | c :: t => if cset_match fl cs c then [t] else []
      | [] => []
      end
  | Seq r1 r2 => flat_map (rmatch fl n r2) (rmatch fl n r1 s)
  | Alt r1 r2 => rmatch fl n r1 s ++ rmatch fl n r2 s
  | Opt r1 => rmatch fl n r1 s ++ [s]
  | Star r1 => star_iter (rmatch fl n r1) true (List.length s) s
  | StarLazy r1 => star_iter (rmatch fl n r1) false (List.length s) s
  | Bol => if (List.length s =? n)%nat then [s] else []
  | Eps => [s]
  end.

(** The scan of [re.sub]: [skip] characters of an earlier match are still to
    be dropped; otherwise a match at this place is replaced and the scan goes
    on after it, and a place with no match keeps its character.  (An empty
    match is replaced too and the character kept; none of the patterns below
    can match the empty string.) *)
Fixpoint sub_scan (fl : flags) (n : nat) (r : regex) (repl : pystr)
    (skip : nat) (s : pystr) : pystr :=
  match skip with
  | S k =>
      match s with
      | _ :: t => sub_scan fl n r repl k t
      | [] => []
      end
  | O =>
      match rmatch fl n r s with
      | s' :: _ =>
          repl ++
          match s with
          | c :: t =>
              match (List.length s - List.length s')%nat with
              | O => c :: sub_scan fl n r repl O t
              | S k => sub_scan fl n r repl k t
              end
          | [] => []
          end
      | [] =>
          match s with
          | c :: t => c :: sub_scan fl n r repl O t
          | [] => []
          end
      end
  end.

(** [re.sub(pattern, repl, s, flags=fl)]. *)
Definition re_sub (fl : flags) (r : regex) (repl : pystr) (s : pystr) : pystr :=
  sub_scan fl (List.length s) r repl O s.

Set Warnings "-register-all".

(** ** Values of the dynamically typed parts

    What [json.loads] can produce, and so what a field of a request or of a
    response can hold.  JSON numbers are taken as integers. *)

Inductive pyval :=
| VNone
| VBool (b : bool)
| VInt (n : Z)
| VStr (s : pystr)
| VList (l : list pyval)
| VDict (d : list (pystr * pyval)).

Definition pydict := list (pystr * pyval).

(** Truth value of an object ([if not x], [all([...])]). *)
Definition truthy (v : pyval) : bool :=
  match v with
  | VNone => false
  | VBool b => b
  | VInt n => negb (Z.eqb n 0)
  | VStr s => match s with [] => false | _ => true end
  | VList l => match l with [] => false | _ => true end
  | VDict d => match d with [] => false | _ => true end
  end.

(** [d.get(key, default)] and [key in d]. *)
Fixpoint dict_find (d : pydict) (key : pystr) : option pyval :=
  match d with
  | [] => None
  | (k, v) :: d' => if pystr_eqb k key then Some v else dict_find d' key
  end.

Definition dict_get (d : pydict) (key : pystr) (default : pyval) : pyval :=
  match dict_find d key with Some v => v | None => default end.

(** [d[key] = v]: an existing key keeps its place, a new one goes last. *)
Fixpoint dict_set (d : pydict) (key : pystr) (v : pyval) : pydict :=
  match d with
  | [] => [(key, v)]
  | (k, w) :: d' =>
      if pystr_eqb k key then (k, v) :: d' else (k, w) :: dict_set d' key v
  end.

(** ** app.py: ResponseCleaner *)

Definition re_flags : flags := {| IGNORECASE := true; DOTALL := true |}.
Definition no_flags : flags := {| IGNORECASE := false; DOTALL := false |}.

(** [<thinking>.*?</thinking>] *)
Definition thinking_block : regex :=
  Seq (lits (py "<thinking>")) (Seq (StarLazy Dot) (lits (py "</thinking>"))).

(** [<reasoning>.*?</reasoning>] *)
Definition reasoning_block : regex :=
  Seq (lits (py "<reasoning>")) (Seq (StarLazy Dot) (lits (py "</reasoning>"))).

(** [</?[a-z_]+>] *)
Definition bare_tag : regex :=
  Seq (Lit 60) (Seq (Opt (Lit 47))
    (Seq (Plus (CSet [CRange 97 122; CChar 95])) (Lit 62))).

(** The apostrophe of the source pattern: U+2019, not the ASCII one. *)
Definition right_quote : codepoint := 8217.

(** [^(Here( is| are|.s)|Based on|The answer is|In summary)[:\s]*], the dot
    standing for U+2019. *)
Definition filler_phrase : regex :=
  Alt (Seq (lits (py "Here"))
           (Alt (lits (py " is"))
                (Alt (lits (py " are")) (lits [right_quote; 115]))))
      (Alt (lits (py "Based on"))
           (Alt (lits (py "The answer is")) (lits (py "In summary")))).

Definition leading_filler : regex :=
  Seq Bol (Seq filler_phrase (Star (CSet [CChar 58; CSpace]))).

Definition patterns_to_remove : list (regex * pystr) :=
  [ (thinking_block, []);
    (reasoning_block, []);
    (bare_tag, []);
    (leading_filler, []) ].

(** The loop over [patterns_to_remove]. *)
Definition apply_patterns (text : pystr) : pystr :=
  fold_left (fun cleaned pr => re_sub re_flags (fst pr) (snd pr) cleaned)
            patterns_to_remove text.

(** [re.sub(r'\s+', ' ', cleaned_text).strip()] *)
Definition collapse_whitespace (s : pystr) : pystr :=
  strip (re_sub no_flags (Plus (CSet [CSpace])) [32] s).

Section Cleaner.
Variable U : Unicode.

(** The last step: a lower-case first character is replaced by its upper
    case. *)
Definition capitalize_first (s : pystr) : pystr :=
  match s with
  | c :: rest => if islower U c then upper U c ++ rest else s
  | [] => s
  end.

(** The body of [clean_response] on a non-empty string. *)
Definition clean_text (text : pystr) : pystr :=
  capitalize_first (collapse_whitespace (apply_patterns text)).

(** [ResponseCleaner.clean_response]: anything that is empty or not a
    string is returned as it is. *)
Definition clean_response (text : pyval) : pyval :=
  match text with
  | VStr s => if truthy text then VStr (clean_text s) else text
  | _ => text
  end.
End Cleaner.

(** ** app.py: UIManager._parse_quiz_questions *)

Record quiz_state := {
  questions : pydict;
  current_question : pystr;
  question_number : N
}.

Definition nonempty (s : pystr) : bool :=
  match s with [] => false | _ => true end.

(** [f"Q{question_number}"] *)
Definition question_key (n : N) : pystr := py "Q" ++ str_of_N n.

(** One round of the loop over the lines. *)
Definition quiz_line (st : quiz_state) (raw : pystr) : quiz_state :=
  let line := strip raw in
  let n := question_number st in
  if nonempty line
     && (startswith line (str_of_N n ++ py ".")
         || startswith line (str_of_N n ++ py " "))
  then
    if nonempty (current_question st) then
      {| questions :=
           dict_set (questions st) (question_key n)
                    (VStr (strip (current_question st)));
         current_question := line;
         question_number := n + 1 |}
    else
      {| questions := questions st;
         current_question := line;
         question_number := n |}
  else if nonempty (current_question st) && nonempty line then
    {| questions := questions st;
       current_question := current_question st ++ py " " ++ line;
       question_number := n |}
  else st.

Definition quiz_start : quiz_state :=
  {| questions := []; current_question := []; question_number := 1 |}.

Definition quiz_finish (st : quiz_state) : pydict :=
  if nonempty (current_question st) then
    dict_set (questions st) (question_key (question_number st))
             (VStr (strip (current_question st)))
  else questions st.

(** [_parse_quiz_questions].  Something that is not a string has no
    [split]: the exception is caught, a warning shown and the empty
    dictionary returned. *)
Definition _parse_quiz_questions (quiz_text : pyval) : pydict :=
  match quiz_text with
  | VStr s => quiz_finish (fold_left quiz_line (split_on 10 s) quiz_start)
  | _ => []
  end.

(** ** EduPal.py: exceptions and the services outside the program *)

Open Scope Z_scope.

(** An exception, as the handlers of the program see it: through [str(e)]. *)
Inductive result (A : Type) :=
| Ok (a : A)
| Raise (msg : pystr).
Arguments Ok {A} a.
Arguments Raise {A} msg.

(** [type(v).__name__] *)
Definition type_name (v : pyval) : pystr :=
  match v with
  | VNone => py "NoneType"
  | VBool _ => py "bool"
  | VInt _ => py "int"
  | VStr _ => py "str"
  | VList _ => py "list"
  | VDict _ => py "dict"
  end.

Definition quoted (s : pystr) : pystr := py "'" ++ s ++ py "'".

Definition join_lines (ls : list pystr) : pystr :=
  match ls with
  | [] => []
  | l :: rest => l ++ flat_map (fun x => 10%N :: x) rest
  end.

(** The text of the AttributeError of a missing attribute. *)
Definition attribute_error (ty attr : pystr) : pystr :=
  quoted ty ++ py " object has no attribute " ++ quoted attr.

Definition not_subscriptable (v : pyval) : pystr :=
  quoted (type_name v) ++ py " object is not subscriptable".

Record message := { role : pystr; content : pystr }.

(** The arguments of [bedrock.invoke_model]; [body] is given before
    [json.dumps]. *)
Record model_request := {
  modelId : pystr;
  messages : list message;
  max_tokens : Z;
  temperature : pystr
}.

(** An external call made while a request is handled. *)
Inductive ext_call :=
| CallModel (rq : model_request)
| CallPdf (data : pyval).

(** What the program reaches outside itself.  A failure is given by the
    text of its exception. *)
Record Services := {
  (** [json.loads(x)] *)
  json_loads : pyval -> result pyval;
  (** [str(v)] for a value that is not a string, as an f-string formats it *)
  py_str : pyval -> pystr;
  (** [base64.b64decode], [PyPDF2.PdfReader] and [page.extract_text()] of
      each page, in order *)
  pdf_page_texts : pyval -> result (list pyval);
  (** [bedrock.invoke_model(...)] followed by
      [json.loads(response['body'].read())] *)
  invoke_model : model_request -> result pyval
}.

(** Computations that may raise and that record their external calls. *)
Definition M (A : Type) : Type := list ext_call -> result A * list ext_call.

Definition ret {A} (a : A) : M A := fun log => (Ok a, log).
Definition raise {A} (msg : pystr) : M A := fun log => (Raise msg, log).
Definition bind {A B} (m : M A) (k : A -> M B) : M B :=
  fun log =>
    match m log with
    | (Ok a, log') => k a log'
    | (Raise e, log') => (Raise e, log')
    end.
(** [try: m except Exception as e: h(str(e))] *)
Definition try_except {A} (m : M A) (h : pystr -> M A) : M A :=
  fun log =>
    match m log with
    | (Ok a, log') => (Ok a, log')
    | (Raise e, log') => h e log'
    end.
Definition lift {A} (r : result A) : M A := fun log => (r, log).
Definition record_call (c : ext_call) : M unit := fun log => (Ok tt, log ++ [c]).

Notation "x <- m ;; k" := (bind m (fun x => k))
  (at level 61, m at next level, right associativity).

(** [v[key]] on a dictionary and [v[i]] on a list, for the path into the
    model's answer. *)
Definition subscript_key (v : pyval) (key : pystr) : result pyval :=
  match v with
  | VDict d =>
      match dict_find d key with
      | Some x => Ok x
      | None => Raise (quoted key)
      end
  | VStr _ => Raise (py "string indices must be integers")
  | VList _ => Raise (py "list indices must be integers or slices, not str")
  | _ => Raise (not_subscriptable v)
  end.

Definition subscript_0 (v : pyval) : result pyval :=
  match v with
  | VList (x :: _) => Ok x
  | VList [] => Raise (py "list index out of range")
  | VStr (c :: _) => Ok (VStr [c])
  | VStr [] => Raise (py "string index out of range")
  | VDict _ => Raise (py "0")
  | _ => Raise (not_subscriptable v)
  end.

Definition result_bind {A B} (r : result A) (k : A -> result B) : result B :=
  match r with Ok a => k a | Raise e => Raise e end.

(** ** EduPal.py: PDFProcessor *)

Section Backend.
Variable U : Unicode.
Variable svc : Services.

(** An f-string field. *)
Definition fmt (v : pyval) : pystr :=
  match v with
  | VStr s => s
  | _ => py_str svc v
  end.

(** The loop over the pages: [text += f"Page {page_num + 1}:\n{page_text}\n\n"]
    for each page with some text. *)
Fixpoint pages_text (page_num : N) (pages : list pyval) (text : pystr) : pystr :=
  match pages with
  | [] => text
  | page_text :: rest =>
      pages_text (page_num + 1) rest
        (if truthy page_text
         then text ++ py "Page " ++ str_of_N (page_num + 1) ++ py ":"
                   ++ [10%N] ++ fmt page_text ++ [10%N; 10%N]
         else text)
  end.

Definition extract_text_from_pdf (pdf_base64 : pyval) : M pystr :=
  try_except
    (if negb (truthy pdf_base64) then raise (py "Empty PDF data provided")
     else
       _ <- record_call (CallPdf pdf_base64) ;;
       pages <- lift (pdf_page_texts svc pdf_base64) ;;
       let text := pages_text 0 pages [] in
       if negb (nonempty (strip text))
       then raise (py "No extractable text found in PDF")
       else ret (strip text))
    (fun e => raise (py "PDF processing failed: " ++ e)).

(** ** EduPal.py: AIResponseHandler *)

Definition model_id : pystr := py "deepseek.r1-v1:0".

Definition user_message (text : pystr) : list message :=
  [ {| role := py "user"; content := text |} ].

(** [response_body['choices'][0]['message']['content']] *)
Definition completion_text (response_body : pyval) : result pyval :=
  result_bind (subscript_key response_body (py "choices")) (fun choices =>
  result_bind (subscript_0 choices) (fun choice =>
  result_bind (subscript_key choice (py "message")) (fun msg =>
  subscript_key msg (py "content")))).

(** The arguments [_invoke_model] hands to the service. *)
Definition bedrock_request (msgs : list message) (max_tok : Z) : model_request :=
  {| modelId := model_id; messages := msgs;
     max_tokens := max_tok; temperature := py "0.1" |}.

Definition _invoke_model (msgs : list message) (max_tok : Z) : M pyval :=
  try_except
    (let rq := bedrock_request msgs max_tok in
     _ <- record_call (CallModel rq) ;;
     response_body <- lift (invoke_model svc rq) ;;
     lift (completion_text response_body))
    (fun e => raise (py "AI model invocation failed: " ++ e)).

Definition qa_prompt (context question : pyval) : pystr :=
  join_lines
    [ py "Answer this question based on the text below.";
      py "Text: " ++ fmt context;
      py "Question: " ++ fmt question;
      py "Provide a concise and accurate answer." ].

Definition handle_question_answer (context question : pyval) : M pyval :=
  _invoke_model (user_message (qa_prompt context question)) 300.

Definition summary_prompt (text : pyval) : pystr :=
  join_lines
    [ py "Create a well-structured bullet point summary of this text:";
      fmt text;
      py "Focus on key concepts and main ideas." ].

Definition generate_summary (text : pyval) : M pyval :=
  _invoke_model (user_message (summary_prompt text)) 400.

Definition quiz_prompt (text : pyval) : pystr :=
  join_lines
    [ py "Create 3 multiple-choice questions about this text:";
      py "        " ++ fmt text;
      py "        Format each question EXACTLY like this:";
      py "        Q1. [Question text]";
      py "        A) [Option A]";
      py "        B) [Option B]";
      py "        C) [Option C]";
      py "        D) [Option D]";
      [];
      py "        Q2. [Question text]";
      py "        A) [Option A]";
      py "        B) [Option B]";
      py "        C) [Option C]";
      py "        D) [Option D]";
      [];
      py "        Q3. [Question text]";
      py "        A) [Option A]";
      py "        B) [Option B]";
      py "        C) [Option C]";
      py "        D) [Option D]";
      [];
      py "        Ensure each question starts with Q1., Q2., Q3. and options use A), B), C), D) format." ].

Definition generate_quiz (text : pyval) : M pyval :=
  _invoke_model (user_message (quiz_prompt text)) 600.

Definition feedback_prompt (question user_answer correct_answer : pyval) : pystr :=
  join_lines
    [ py "Please provide feedback on this quiz answer:";
      [];
      py "    Question: " ++ fmt question;
      [];
      py "    User's Answer: " ++ fmt user_answer;
      py "    Expected Correct Answer: " ++ fmt correct_answer;
      [];
      py "    Provide constructive feedback that:";
      py "    1. First states whether the user's answer matches the expected answer";
      py "    2. Explains why the expected answer is correct";
      py "    3. Provides educational insights about the topic";
      py "    4. Is encouraging and helpful for learning";
      py "    Keep the feedback concise but informative." ].

Definition handle_feedback (question user_answer correct_answer : pyval) : M pyval :=
  _invoke_model
    (user_message (feedback_prompt question user_answer correct_answer)) 300.

(** The methods the class [AIResponseHandler] defines.  A call
    [self.ai_handler.name(...)] first looks [name] up among them. *)
Inductive ai_method :=
| m_invoke_model
| m_handle_question_answer
| m_generate_summary
| m_generate_quiz
| m_handle_feedback.

Definition ai_methods : list (pystr * ai_method) :=
  [ (py "_invoke_model", m_invoke_model);
    (py "handle_question_answer", m_handle_question_answer);
    (py "generate_summary", m_generate_summary);
    (py "generate_quiz", m_generate_quiz);
    (py "handle_feedback", m_handle_feedback) ].

Fixpoint find_method (ms : list (pystr * ai_method)) (name : pystr)
    : option ai_method :=
  match ms with
  | [] => None
  | (k, m) :: ms' => if pystr_eqb k name then Some m else find_method ms' name
  end.

(** A method called with three positional arguments. *)
Definition call3 (m : ai_method) (a b c : pyval) : M pyval :=
  match m with
  | m_handle_feedback => handle_feedback a b c
  | m_invoke_model =>
      raise (py "AIResponseHandler._invoke_model() takes from 2 to 3 positional arguments but 4 were given")
  | m_handle_question_answer =>
      raise (py "AIResponseHandler.handle_question_answer() takes 3 positional arguments but 4 were given")
  | m_generate_summary =>
      raise (py "AIResponseHandler.generate_summary() takes 2 positional arguments but 4 were given")
  | m_generate_quiz =>
      raise (py "AIResponseHandler.generate_quiz() takes 2 positional arguments but 4 were given")
  end.

(** [self.ai_handler.<name>(a, b, c)] *)
Definition ai_handler_call3 (name : pystr) (a b c : pyval) : M pyval :=
  match find_method ai_methods name with
  | Some m => call3 m a b c
  | None => raise (attribute_error (py "AIResponseHandler") name)
  end.

(** ** EduPal.py: ResponseBuilder *)

(** A response of the Lambda function.  [body] is the dictionary handed
    to [json.dumps]. *)
Record response := {
  statusCode : Z;
  headers : pydict;
  body : pydict
}.

Definition cors_headers : pydict :=
  [ (py "Access-Control-Allow-Origin", VStr (py "*"));
    (py "Content-Type", VStr (py "application/json")) ].

(** [json.dumps(str(Any))]: the text [typing.Any] between double quotes. *)
Definition timestamp : pyval := VStr ([34%N] ++ py "typing.Any" ++ [34%N]).

Definition build_success_response (data : pyval) (action : pystr) : response :=
  {| statusCode := 200;
     headers := cors_headers;
     body := [ (py "success", VBool true);
               (py "action", VStr action);
               (py "response", data);
               (py "timestamp", timestamp) ] |}.

Definition build_error_response (message : pystr) (status_code : Z) : response :=
  {| statusCode := status_code;
     headers := cors_headers;
     body := [ (py "success", VBool false);
               (py "error", VStr message);
               (py "timestamp", timestamp) ] |}.

(** ** EduPal.py: EduPalAIService *)

(** [v.get] exists on dictionaries only. *)
Definition as_dict (v : pyval) : result pydict :=
  match v with
  | VDict d => Ok d
  | _ => Raise (attribute_error (type_name v) (py "get"))
  end.

(** [v.lower()] *)
Definition str_lower (v : pyval) : result pystr :=
  match v with
  | VStr s => Ok (lower U s)
  | _ => Raise (attribute_error (type_name v) (py "lower"))
  end.

(** [v.strip()] *)
Definition str_strip (v : pyval) : result pystr :=
  match v with
  | VStr s => Ok (strip s)
  | _ => Raise (attribute_error (type_name v) (py "strip"))
  end.

(** [v[:n]]: strings and lists are cut, anything else raises (the text
    for a dictionary is that of Python up to 3.11). *)
Definition slice_to (n : nat) (v : pyval) : result pyval :=
  match v with
  | VStr s => Ok (VStr (firstn n s))
  | VList l => Ok (VList (firstn n l))
  | VDict _ => Raise (py "unhashable type: 'slice'")
  | _ => Raise (not_subscriptable v)
  end.

Definition _parse_request_body (event : pydict) : M pyval :=
  match dict_find event (py "body") with
  | Some b => lift (json_loads svc b)
  | None => ret (VDict event)
  end.

Definition _handle_pdf_processing (body : pydict) : M response :=
  let pdf_data := dict_get body (py "pdf_data") (VStr []) in
  if negb (truthy pdf_data) then
    ret (build_error_response (py "No PDF data provided") 400)
  else
    extracted_text <- extract_text_from_pdf pdf_data ;;
    ret (build_success_response (VStr extracted_text) (py "process_pdf")).

Definition _handle_ai_actions (action : pystr) (body : pydict) : M response :=
  text <- lift (slice_to 5000 (dict_get body (py "text") (VStr []))) ;;
  stripped <- lift (str_strip text) ;;
  if negb (nonempty stripped) then
    ret (build_error_response (py "No text content provided") 400)
  else if pystr_eqb action (py "qa") then
    let question := dict_get body (py "input") (VStr []) in
    if negb (truthy question) then
      ret (build_error_response (py "No question provided") 400)
    else
      result <- handle_question_answer text question ;;
      ret (build_success_response result action)
  else if pystr_eqb action (py "summarize") then
    result <- generate_summary text ;;
    ret (build_success_response result action)
  else if pystr_eqb action (py "quiz") then
    result <- generate_quiz text ;;
    ret (build_success_response result action)
  else if pystr_eqb action (py "feedback") then
    let question := dict_get body (py "question") (VStr []) in
    let user_answer := dict_get body (py "user_answer") (VStr []) in
    let correct_answer := dict_get body (py "correct_answer") (VStr []) in
    if negb (forallb truthy [question; user_answer; correct_answer]) then
      ret (build_error_response
             (py "Missing required fields for feedback: question, user_answer, correct_answer")
             400)
    else
      result <- ai_handler_call3 (py "provide_feedback")
                  question user_answer correct_answer ;;
      ret (build_success_response result action)
  else
    (* no branch bound [result] *)
    raise (py "cannot access local variable 'result' where it is not associated with a value").

Definition ai_actions : list pystr :=
  [py "qa"; py "summarize"; py "quiz"; py "feedback"].

Definition invalid_action (action : pystr) : pystr :=
  py "Invalid action: " ++ action
  ++ py ". Supported actions: process_pdf, qa, summarize, quiz, feedback".

(** The statements under [try:] in [process_request]. *)
Definition route (event : pydict) : M response :=
  parsed <- _parse_request_body event ;;
  body <- lift (as_dict parsed) ;;
  action <- lift (str_lower (dict_get body (py "action") (VStr []))) ;;
  if pystr_eqb action (py "process_pdf") then _handle_pdf_processing body
  else if existsb (pystr_eqb action) ai_actions then
    _handle_ai_actions action body
  else ret (build_error_response (invalid_action action) 400).

Definition process_request (event : pydict) : M response :=
  try_except (route event)
    (fun e => ret (build_error_response (py "Internal server error: " ++ e) 500)).

(** [lambda_handler]: the entry point; [context] is not used. *)
Definition lambda_handler (event : pydict) : M response :=
  try_except (process_request event)
    (fun e => ret (build_error_response (py "Unexpected error: " ++ e) 500)).

(** A request handled from a fresh log: the response, or the text of an
    exception that got out, and the external calls made. *)
Definition run {A} (m : M A) : result A * list ext_call := m [].

Definition is_model_call (c : ext_call) : bool :=
  match c with CallModel _ => true | CallPdf _ => false end.

(** How often the model was invoked. *)
Definition model_calls (log : list ext_call) : nat :=
  List.length (filter is_model_call log).

End Backend.

(** ** app.py: APIClient *)

(** What [requests.post] comes back with. *)
Inductive http_outcome :=
| HttpTimeout
| HttpConnectionError
| HttpFailure (msg : pystr)
| HttpResponse (status_code : Z) (text : pystr) (json : result pyval).

(** The response of the Lambda function as the JSON document the client
    reads.  The entry [body] stands for the serialised body: what
    [json.loads] gives back for it is the dictionary itself. *)
Definition response_json (r : response) : pyval :=
  VDict [ (py "statusCode", VInt (statusCode r));
          (py "headers", VDict (headers r));
          (py "body", VDict (body r)) ].

Definition str_of_Z (z : Z) : pystr :=
  if z <? 0 then py "-" ++ str_of_N (Z.to_N (- z)) else str_of_N (Z.to_N z).

Section Client.
Variable U : Unicode.
Variable post : pydict -> http_outcome.

Definition no_response : pyval := VStr (py "No response found").

Definition _extract_response_data (response_data : pyval) : result pyval :=
  result_bind (as_dict response_data) (fun d =>
  match dict_find d (py "body") with
  | Some b =>
      result_bind (as_dict b) (fun body_content =>
      Ok (dict_get body_content (py "response") no_response))
  | None => Ok (dict_get d (py "response") no_response)
  end).

(** The four messages start with the signs U+1F6A8, U+23F0, U+1F50C and
    U+274C. *)
Definition call_backend (action text user_input : pyval) : pyval :=
  let payload :=
    [ (py "action", action); (py "text", text); (py "input", user_input) ] in
  match post payload with
  | HttpResponse status_code body_text json =>
      if status_code =? 200 then
        match result_bind json _extract_response_data with
        | Ok raw_response => clean_response U raw_response
        | Raise e => VStr ([10060%N] ++ py " Error: " ++ e)
        end
      else
        VStr ([128680%N] ++ py " API Error " ++ str_of_Z status_code
              ++ py ": " ++ body_text)
  | HttpTimeout => VStr ([9200%N] ++ py " Request timeout - please try again")
  | HttpConnectionError =>
      VStr ([128268%N] ++ py " Connection error - check your internet connection")
  | HttpFailure e => VStr ([10060%N] ++ py " Error: " ++ e)
  end.
End Client.

(** ** Stand-ins for tests *)

(** Case tables that leave everything outside ASCII alone. *)
Definition ascii_only : Unicode :=
  {| unicode_islower := fun _ => false;
     unicode_upper := fun c => [c];
     unicode_lower := fun s => s |}.

(** The answer of the model service whose generated text is [reply]. *)
Definition completion (reply : pyval) : pyval :=
  VDict [ (py "choices",
           VList [ VDict [ (py "message",
                            VDict [ (py "content", reply) ]) ] ]) ].

(** A stub of the services: the model always answers [reply]. *)
Definition stub_services (reply : pystr) : Services :=
  {| json_loads := fun _ => Raise (py "Expecting value");
     py_str := fun _ => py "?";
     pdf_page_texts := fun _ => Raise (py "EOF marker not found");
     invoke_model := fun _ => Ok (completion (VStr reply)) |}.

(** The endpoint seen from the client when the Lambda function is called
    with the posted payload as its event and its response comes back as the
    JSON document of an HTTP 200 answer. *)
Definition lambda_endpoint (U : Unicode) (svc : Services) (payload : pydict)
    : http_outcome :=
  match fst (run (lambda_handler U svc payload)) with
  | Ok r => HttpResponse 200 [] (Ok (response_json r))
  | Raise e => HttpFailure e
  end.

(** ** app.py: FileProcessor

    The two extractors, given what reading the uploaded file came to: the
    text of each page (or the exception of the PDF reader), and the decoded
    content (or the exception of reading or decoding).  An exception is
    reported on the page and [None] returned. *)
Module FileProcessor.

Definition extract_text_from_pdf (svc : Services) (read : result (list pyval))
    : option pystr :=
  match read with
  | Ok pages =>
      let text := pages_text svc 0 pages [] in
      if nonempty (strip text) then Some (strip text) else None
  | Raise _ => None
  end.

Definition extract_text_from_txt (decoded : result pystr) : option pystr :=
  match decoded with
  | Ok text_content =>
      if nonempty (strip text_content) then Some (strip text_content) else None
  | Raise _ => None
  end.

End FileProcessor.

(** * Notions used in the statements *)

Open Scope N_scope.

(** The truncation in the words of the specification: the first 5000
    characters of a longer text, a text within the bound as it is. *)
Definition spec_truncate (t : pystr) : pystr :=
  if (5000 <? List.length t)%nat then firstn 5000 t else t.

(** The two shapes [ResponseBuilder] gives a response. *)
Definition is_success_response (r : response) : Prop :=
  exists data action, r = build_success_response data action.

Definition is_error_response (code : Z) (r : response) : Prop :=
  exists msg, r = build_error_response msg code.

(** The texts and requests of the scenarios. *)
Definition photosynthesis : pystr :=
  py "Photosynthesis converts light into chemical energy.".

Definition raw_summary : pystr :=
  py "<thinking>ignore</thinking>here is a summary: plants use light.".

Definition summarize_request : pydict :=
  [ (py "action", VStr (py "summarize")); (py "text", VStr photosynthesis) ].

Definition feedback_request : pydict :=
  [ (py "action", VStr (py "feedback"));
    (py "text", VStr (py "Cells divide by mitosis."));
    (py "question", VStr (py "Q"));
    (py "user_answer", VStr (py "B"));
    (py "correct_answer", VStr (py "B")) ].

(** A text of 5000 spaces followed by a word. *)
Definition late_text : pystr := repeat 32%N 5000 ++ py "mitosis".

Definition late_text_request : pydict :=
  [ (py "action", VStr (py "quiz")); (py "text", VStr late_text) ].

(** A text of 5000 letters [a] and a [b]. *)
Definition long_text : pystr := repeat 97%N 5000 ++ py "b".

Definition long_text_request : pydict :=
  [ (py "action", VStr (py "Summarize")); (py "text", VStr long_text) ].

Definition no_question_request : pydict :=
  [ (py "action", VStr (py "qa")); (py "text", VStr photosynthesis);
    (py "input", VStr []) ].

Definition three_questions : pystr :=
  join_lines [ py "1. Q one"; py "A) x"; py "2. Q two"; py "B) y";
               py "3. Q three"; py "C) z" ].

(** A line opens the first question when, stripped, it starts with "1." or
    with "1 ". *)
Definition opens_first (raw : pystr) : bool :=
  let line := strip raw in
  nonempty line && (startswith line (py "1.") || startswith line (py "1 ")).

(** A pattern without [^]. *)
Fixpoint bol_free (r : regex) : bool :=
  match r with
  | Bol => false
  | Seq a b | Alt a b => bol_free a && bol_free b
  | Opt a | Star a | StarLazy a => bol_free a
  | Lit _ | Dot | CSet _ | Eps => true
  end.

(** [s] without its longest prefix of characters that satisfy [f]. *)
Fixpoint drop_while (f : codepoint -> bool) (s : pystr) : pystr :=
  match s with
  | c :: t => if f c then drop_while f t else s
  | [] => []
  end.

(** The first three rewrites of [patterns_to_remove]: the markup. *)
Definition remove_markup (text : pystr) : pystr :=
  fold_left (fun cleaned pr => re_sub re_flags (fst pr) (snd pr) cleaned)
            (firstn 3 patterns_to_remove) text.

(** A colon or a whitespace character: the set [[:\s]]. *)
Definition colon_or_space (c : codepoint) : bool := (c =? 58) || isspace c.

(** The filler phrases, in lower case. *)
Definition filler_phrases : list pystr :=
  [ py "here is"; py "here are"; py "here" ++ [right_quote] ++ py "s";
    py "based on"; py "the answer is"; py "in summary" ].

(** [re.sub(r'\s+', ' ', s)] *)
Definition squeeze (s : pystr) : pystr :=
  re_sub no_flags (Plus (CSet [CSpace])) [32] s.

(** The first character, if any, is not whitespace. *)
Definition head_clean (s : pystr) : bool :=
  match s with c :: _ => negb (isspace c) | [] => true end.

(** Every whitespace character is a space and is not followed by
    whitespace. *)
Fixpoint squeezed (s : pystr) : bool :=
  match s with
  | [] => true
  | c :: t => (negb (isspace c) || ((c =? 32) && head_clean t)) && squeezed t
  end.

(** The shape [collapse_whitespace] gives a text: words with one space
    between them. *)
Definition tidy (s : pystr) : Prop :=
  squeezed s = true /\ head_clean s = true /\ head_clean (rev s) = true.

Definition ws_free (s : pystr) : bool := forallb (fun c => negb (isspace c)) s.

(** What the last step of the cleaner needs of the case tables outside
    ASCII: the upper case of a lower-case character is not empty, holds no
    whitespace, and starts with a character that upper-casing leaves alone
    if it is lower-case itself. *)
Definition upper_settles (U : Unicode) : Prop :=
  forall c, is_ascii c = false -> unicode_islower U c = true ->
    exists d ds, unicode_upper U c = d :: ds
      /\ ws_free (d :: ds) = true
      /\ (islower U d = true -> upper U d = [d]).

(** A cleaned value the four rewrites leave as it is. *)
Definition settled (v : pyval) : Prop :=
  match v with
  | VStr y => apply_patterns y = y
  | _ => True
  end.

(** A character a filler phrase can start with: h, b, t or i, in the sense
    of IGNORECASE. *)
Definition filler_initial (c : codepoint) : bool :=
  existsb (fun p => lit_match re_flags p c) [72; 66; 84; 73].

(** Notions for the further properties. *)

(** The request [_handle_ai_actions] sends to the model for the actions that
    call it: [qa], [summarize] and [quiz]. *)
Definition ai_request (svc : Services) (action : pystr) (doc question : pyval)
    : model_request :=
  if pystr_eqb action (py "qa") then
    bedrock_request (user_message (qa_prompt svc doc question)) 300
  else if pystr_eqb action (py "summarize") then
    bedrock_request (user_message (summary_prompt svc doc)) 400
  else
    bedrock_request (user_message (quiz_prompt svc doc)) 600.

(** The actions that reach the model. *)
Definition model_actions : list pystr := [py "qa"; py "summarize"; py "quiz"].

(** Values by kind. *)
Definition is_dict (v : pyval) : bool := match v with VDict _ => true | _ => false end.
Definition is_str (v : pyval) : bool := match v with VStr _ => true | _ => false end.

(** A stub whose [json.loads] reads every body as the list [[1]]. *)
Definition list_body_services : Services :=
  {| json_loads := fun _ => Ok (VList [VInt 1]);
     py_str := fun _ => py "?";
     pdf_page_texts := fun _ => Raise (py "EOF marker not found");
     invoke_model := fun _ => Ok (completion (VStr (py "unused"))) |}.

(** A stub of the services whose model call fails with [e]. *)
Definition failing_model (e : pystr) : Services :=
  {| json_loads := fun _ => Raise (py "Expecting value");
     py_str := fun _ => py "?";
     pdf_page_texts := fun _ => Raise (py "EOF marker not found");
     invoke_model := fun _ => Raise e |}.

(** A stub of the services whose model answers with an error object. *)
Definition throttled_model : Services :=
  {| json_loads := fun _ => Raise (py "Expecting value");
     py_str := fun _ => py "?";
     pdf_page_texts := fun _ => Raise (py "EOF marker not found");
     invoke_model := fun _ => Ok (VDict [ (py "message", VStr (py "throttled")) ]) |}.

(** Some character of [s] is not whitespace. *)
Definition has_nonspace (s : pystr) : bool :=
  existsb (fun c => negb (isspace c)) s.

(** A stub of the services whose PDF reader finds the given page texts. *)
Definition pdf_with_pages (pages : list pyval) : Services :=
  {| json_loads := fun _ => Raise (py "Expecting value");
     py_str := fun _ => py "?";
     pdf_page_texts := fun _ => Ok pages;
     invoke_model := fun _ => Ok (completion (VStr (py "unused"))) |}.

Definition pdf_request : pydict :=
  [ (py "action", VStr (py "process_pdf")); (py "pdf_data", VStr (py "JVBERi0=")) ].

(** The calls a computation adds to the log: none, or one. *)
Definition adds_at_most_one {A} (m : M A) : Prop :=
  forall log, snd (m log) = log \/ exists c, snd (m log) = log ++ [c].

(** What a line adds to the block being read: itself, stripped, after a
    space; nothing when it is blank. *)
Definition add_line (block raw : pystr) : pystr :=
  if nonempty (strip raw) then block ++ py " " ++ strip raw else block.

(** * Properties *)

(** ** Strings *)

Lemma cp_eqb_eq (a b : codepoint) : cp_eqb a b = true <-> a = b.
Proof. apply N.eqb_eq. Qed.

Lemma pystr_eqb_eq (a b : pystr) : pystr_eqb a b = true <-> a = b.
Proof.
  revert b; induction a as [|x a IH]; intros [|y b]; simpl;
    try (split; [discriminate | discriminate]); try tauto.
  rewrite andb_true_iff, cp_eqb_eq, IH.
  split; [intros [-> ->]; reflexivity | intros H; inversion H; auto].
Qed.

Lemma pystr_eqb_refl (a : pystr) : pystr_eqb a a = true.
Proof. apply pystr_eqb_eq; reflexivity. Qed.

Lemma pystr_eqb_neq (a b : pystr) : a <> b -> pystr_eqb a b = false.
Proof.
  intros H; destruct (pystr_eqb a b) eqn:E; [|reflexivity].
  apply pystr_eqb_eq in E; contradiction.
Qed.

Lemma lstrip_blank (s : pystr) : forallb isspace s = true -> lstrip s = [].
Proof.
  induction s as [|c s IH]; simpl; [reflexivity|].
  intros H; apply andb_true_iff in H as [Hc Hs]; rewrite Hc; auto.
Qed.

Lemma strip_blank (s : pystr) : forallb isspace s = true -> strip s = [].
Proof. intros H; unfold strip; rewrite (lstrip_blank _ H); reflexivity. Qed.

(** ** Dictionaries *)

Lemma dict_find_set_same (d : pydict) (key : pystr) (v : pyval) :
  dict_find (dict_set d key v) key = Some v.
Proof.
  induction d as [|[k w] d IH]; simpl.
  - rewrite pystr_eqb_refl; reflexivity.
  - destruct (pystr_eqb k key) eqn:E; simpl; rewrite E; auto.
Qed.

Lemma dict_find_set_other (d : pydict) (key k' : pystr) (v : pyval) :
  key <> k' -> dict_find (dict_set d key v) k' = dict_find d k'.
Proof.
  intros Hne; induction d as [|[k w] d IH]; simpl.
  - rewrite (pystr_eqb_neq Hne); reflexivity.
  - destruct (pystr_eqb k key) eqn:E; simpl.
    + apply pystr_eqb_eq in E; subst k.
      rewrite (pystr_eqb_neq Hne); reflexivity.
    + destruct (pystr_eqb k k'); auto.
Qed.

Lemma dict_get_set_other (d : pydict) (key k' : pystr) (v dflt : pyval) :
  key <> k' -> dict_get (dict_set d key v) k' dflt = dict_get d k' dflt.
Proof. intros H; unfold dict_get; rewrite dict_find_set_other; auto. Qed.

Lemma dict_get_set_same (d : pydict) (key : pystr) (v dflt : pyval) :
  dict_get (dict_set d key v) key dflt = v.
Proof. unfold dict_get; rewrite dict_find_set_same; reflexivity. Qed.

(** ** The regular-expression engine *)

Lemma flat_map_flat_map {A B C} (f : A -> list B) (g : B -> list C) (l : list A) :
  flat_map g (flat_map f l) = flat_map (fun x => flat_map g (f x)) l.
Proof.
  induction l as [|x l IH]; simpl; [reflexivity|].
  rewrite flat_map_app, IH; reflexivity.
Qed.

Section RegexFacts.
Variable fl : flags.

Lemma star_iter_ext (m m' : pystr -> list pystr) (g : bool) (fuel : nat) (s : pystr) :
  (forall x, m x = m' x) -> star_iter m g fuel s = star_iter m' g fuel s.
Proof.
  intros Hm. revert s; induction fuel as [|f IH]; intros s; simpl; [reflexivity|].
  rewrite Hm.
  rewrite (flat_map_ext _ (fun s' => if (List.length s' <? List.length s)%nat
                                      then star_iter m' g f s' else [])); [reflexivity|].
  intros a; destruct (List.length a <? List.length s)%nat; auto.
Qed.

(** Only [^] looks at the length of the subject. *)
Lemma rmatch_bol_free (n n' : nat) (r : regex) (s : pystr) :
  bol_free r = true -> rmatch fl n r s = rmatch fl n' r s.
Proof.
  revert s; induction r; intros s Hb; simpl in *;
    try apply andb_true_iff in Hb as [Hb1 Hb2]; try reflexivity; try discriminate.
  - rewrite (IHr1 s Hb1). apply flat_map_ext; intros a; apply IHr2; assumption.
  - rewrite (IHr1 s Hb1), (IHr2 s Hb2); reflexivity.
  - rewrite (IHr s Hb); reflexivity.
  - apply star_iter_ext; intros x; apply IHr; assumption.
  - apply star_iter_ext; intros x; apply IHr; assumption.
Qed.

Lemma sub_scan_nil (n : nat) (r : regex) (repl : pystr) :
  sub_scan fl n r repl 0 []
  = match rmatch fl n r [] with _ :: _ => repl ++ [] | [] => [] end.
Proof. reflexivity. Qed.

Lemma sub_scan_cons (n : nat) (r : regex) (repl : pystr) (c : codepoint) (t : pystr) :
  sub_scan fl n r repl 0 (c :: t)
  = match rmatch fl n r (c :: t) with
    | s' :: _ =>
        repl ++
        match (List.length (c :: t) - List.length s')%nat with
        | O => c :: sub_scan fl n r repl 0 t
        | S k => sub_scan fl n r repl k t
        end
    | [] => c :: sub_scan fl n r repl 0 t
    end.
Proof. reflexivity. Qed.

Lemma sub_scan_S (n : nat) (r : regex) (repl : pystr) (k : nat) (c : codepoint)
    (t : pystr) :
  sub_scan fl n r repl (S k) (c :: t) = sub_scan fl n r repl k t.
Proof. reflexivity. Qed.

Lemma sub_scan_bol_free (n n' : nat) (r : regex) (repl : pystr) (k : nat) (s : pystr) :
  bol_free r = true ->
  sub_scan fl n r repl k s = sub_scan fl n' r repl k s.
Proof.
  intros Hb. revert k; induction s as [|c t IH]; intros k.
  - destruct k; [|reflexivity].
    rewrite !sub_scan_nil, (@rmatch_bol_free n n' r [] Hb); reflexivity.
  - destruct k; [|rewrite !sub_scan_S; apply IH].
    rewrite !sub_scan_cons, (@rmatch_bol_free n n' r (c :: t) Hb).
    destruct (rmatch fl n' r (c :: t)) as [|s' ?]; [rewrite IH; reflexivity|].
    destruct (List.length (c :: t) - List.length s')%nat; rewrite IH; reflexivity.
Qed.

(** A prefix at none of whose characters the pattern can start is copied. *)
Lemma sub_scan_prefix (n : nat) (r : regex) (repl p rest : pystr) :
  (forall c s, In c p -> rmatch fl n r (c :: s) = []) ->
  sub_scan fl n r repl 0 (p ++ rest) = p ++ sub_scan fl n r repl 0 rest.
Proof.
  induction p as [|c p IH]; intros H; [reflexivity|].
  rewrite <- app_comm_cons, sub_scan_cons, (H c (p ++ rest) (or_introl eq_refl)).
  rewrite IH; [reflexivity|]. intros d s Hd; apply H; right; assumption.
Qed.

Lemma re_sub_prefix (r : regex) (repl p rest : pystr) :
  bol_free r = true ->
  (forall n c s, In c p -> rmatch fl n r (c :: s) = []) ->
  re_sub fl r repl (p ++ rest) = p ++ re_sub fl r repl rest.
Proof.
  intros Hb H. unfold re_sub.
  rewrite sub_scan_prefix by (intros; apply H; assumption).
  rewrite (@sub_scan_bol_free _ (List.length rest) r repl 0 rest Hb). reflexivity.
Qed.

(** Skipping is dropping. *)
Lemma sub_scan_skip (n : nat) (r : regex) (repl : pystr) (k : nat) (s : pystr) :
  (k <= List.length s)%nat ->
  sub_scan fl n r repl k s = sub_scan fl n r repl 0 (skipn k s).
Proof.
  revert s; induction k as [|k IH]; intros s Hk; [reflexivity|].
  destruct s as [|c t]; [simpl in Hk; lia|].
  rewrite sub_scan_S. simpl skipn. apply IH. simpl in Hk; lia.
Qed.

(** Past the beginning of the subject a pattern that starts with [^] finds
    nothing. *)
Lemma sub_scan_past_bol (n : nat) (k : regex) (repl s : pystr) :
  (List.length s < n)%nat ->
  sub_scan fl n (Seq Bol k) repl 0 s = s.
Proof.
  induction s as [|c t IH]; intros Hn.
  - rewrite sub_scan_nil; cbn [rmatch].
    destruct (Nat.eqb_spec (List.length (@nil codepoint)) n) as [E|E];
      [simpl in *; lia | reflexivity].
  - rewrite sub_scan_cons; cbn [rmatch].
    destruct (Nat.eqb_spec (List.length (c :: t)) n) as [E|E]; [lia|].
    cbn [flat_map]. rewrite IH; [reflexivity | simpl in Hn; lia].
Qed.

Lemma drop_while_length (f : codepoint -> bool) (s : pystr) :
  (List.length (drop_while f s) <= List.length s)%nat.
Proof. induction s as [|c t IH]; simpl; [lia|]. destruct (f c); simpl; lia. Qed.

Lemma skipn_drop_while (f : codepoint -> bool) (s : pystr) :
  skipn (List.length s - List.length (drop_while f s)) s = drop_while f s.
Proof.
  induction s as [|c t IH]; [reflexivity|].
  simpl drop_while. destruct (f c).
  - pose proof (drop_while_length f t).
    replace (List.length (c :: t) - List.length (drop_while f t))%nat
      with (S (List.length t - List.length (drop_while f t)))
      by (cbn [List.length]; lia).
    cbn [skipn]; assumption.
  - rewrite Nat.sub_diag; reflexivity.
Qed.

(** The greedy repetition of a set of characters first takes all it can. *)
Lemma star_cset_head (n : nat) (cs : list cset_item) (s : pystr) :
  exists tl, rmatch fl n (Star (CSet cs)) s
             = drop_while (cset_match fl cs) s :: tl.
Proof.
  simpl rmatch. generalize (Nat.le_refl (List.length s)).
  generalize (List.length s) at 2 3 as fuel. intros fuel; revert s.
  induction fuel as [|f IH]; intros s Hs.
  - destruct s; [|simpl in Hs; lia]. exists []; reflexivity.
  - destruct s as [|c t]; [exists []; reflexivity|].
    cbn [star_iter rmatch drop_while].
    destruct (cset_match fl cs c).
    + cbn [flat_map]. rewrite app_nil_r.
      replace (List.length t <? List.length (c :: t))%nat with true
        by (symmetry; apply Nat.ltb_lt; simpl; lia).
      destruct (IH t) as [tl E]; [simpl in Hs; lia|].
      rewrite E. eexists; reflexivity.
    + exists []; reflexivity.
Qed.

End RegexFacts.

(** ** Characters under IGNORECASE *)

Ltac bool_to_prop H :=
  rewrite ?orb_true_iff, ?andb_true_iff, ?negb_true_iff, ?orb_false_iff,
    ?andb_false_iff, ?N.leb_le, ?N.eqb_eq, ?N.ltb_lt, ?N.leb_gt, ?N.eqb_neq,
    ?N.ltb_ge in H.

Lemma isspace_false (c : codepoint) :
  33 <= c <= 132 \/ 161 <= c <= 5759 \/ 8203 <= c <= 8231 \/ 8240 <= c <= 8286
  \/ 8288 <= c <= 12287 ->
  isspace c = false.
Proof.
  intros Hc. apply not_true_is_false. intros H.
  unfold isspace, between in H. bool_to_prop H. lia.
Qed.

Lemma sre_lower_ascii_lower (c : codepoint) : sre_lower (ascii_lower c) = sre_lower c.
Proof.
  unfold ascii_lower, sre_lower.
  destruct (ascii_isupper c) eqn:E; [|rewrite E; reflexivity].
  assert (Hc : 65 <= c <= 90) by (unfold ascii_isupper, between in E; bool_to_prop E; lia).
  assert (E1 : ascii_isupper (c + 32) = false).
  { unfold ascii_isupper, between. apply andb_false_iff; right. apply N.leb_gt; lia. }
  rewrite E1.
  destruct (N.eqb_spec (c + 32) 304); [lia|].
  destruct (N.eqb_spec (c + 32) 8490); [lia|]. reflexivity.
Qed.

Lemma cset_match_ascii_lower (cs : list cset_item) (c : codepoint) :
  cset_match re_flags cs (ascii_lower c) = cset_match re_flags cs c.
Proof. unfold cset_match; cbn [IGNORECASE re_flags]. rewrite sre_lower_ascii_lower; reflexivity. Qed.

Lemma lit_match_ascii_lower (p c : codepoint) :
  lit_match re_flags p (ascii_lower c) = lit_match re_flags p c.
Proof. unfold lit_match; cbn [IGNORECASE re_flags]. apply cset_match_ascii_lower. Qed.

Lemma lit_of_lower (p c l : codepoint) :
  ascii_lower c = l -> lit_match re_flags p c = lit_match re_flags p l.
Proof. intros <-; symmetry; apply lit_match_ascii_lower. Qed.

Lemma lit_match_ci (p c : codepoint) :
  lit_match re_flags p c
  = (sre_lower p =? sre_lower c)
    || ((sre_lower p =? 105) && (sre_lower c =? 305))
    || ((sre_lower p =? 115) && (sre_lower c =? 383)).
Proof.
  unfold lit_match, cset_match, cset_has, cp_eqb.
  cbn [IGNORECASE re_flags existsb item_has]. unfold cp_eqb.
  rewrite !orb_false_r. reflexivity.
Qed.

Lemma sre_lower_cases (c : codepoint) :
  (65 <= c <= 90 /\ sre_lower c = c + 32)
  \/ (c = 304 /\ sre_lower c = 105)
  \/ (c = 8490 /\ sre_lower c = 107)
  \/ ((c < 65 \/ 90 < c) /\ c <> 304 /\ c <> 8490 /\ sre_lower c = c).
Proof.
  unfold sre_lower, ascii_isupper, between.
  destruct (N.leb_spec 65 c); destruct (N.leb_spec c 90); cbn [andb];
    try (left; split; [lia | reflexivity]);
    (destruct (N.eqb_spec c 304); [right; left; split; [assumption | reflexivity]|]);
    (destruct (N.eqb_spec c 8490);
     [right; right; left; split; [assumption | reflexivity]|]);
    right; right; right; repeat split; try assumption; lia.
Qed.

(** Only [<] itself matches the literal [<]. *)
Lemma lit_lt (c : codepoint) : c <> 60 -> lit_match re_flags 60 c = false.
Proof.
  intros Hc. rewrite lit_match_ci.
  change (sre_lower 60) with 60.
  change (60 =? 105) with false. change (60 =? 115) with false.
  cbn [andb orb]. rewrite !orb_false_r. apply N.eqb_neq.
  destruct (sre_lower_cases c) as [[? E]|[[? E]|[[? E]|(? & ? & ? & E)]]];
    rewrite E; lia.
Qed.

(** ** Steps of the matcher *)

Section MatcherSteps.
Variables (fl : flags) (n : nat).

Lemma rmatch_seq_nil (r1 r2 : regex) (s : pystr) :
  rmatch fl n r1 s = [] -> rmatch fl n (Seq r1 r2) s = [].
Proof. intros H; cbn [rmatch]; rewrite H; reflexivity. Qed.

Lemma rmatch_lit_false (p c : codepoint) (s : pystr) :
  lit_match fl p c = false -> rmatch fl n (Lit p) (c :: s) = [].
Proof. intros H; cbn [rmatch]; rewrite H; reflexivity. Qed.

Lemma rmatch_seq_assoc (a b c : regex) (s : pystr) :
  rmatch fl n (Seq (Seq a b) c) s = rmatch fl n (Seq a (Seq b c)) s.
Proof. cbn [rmatch]. apply flat_map_flat_map. Qed.

Lemma rmatch_seq_alt (a b k : regex) (s : pystr) :
  rmatch fl n (Seq (Alt a b) k) s
  = rmatch fl n (Seq a k) s ++ rmatch fl n (Seq b k) s.
Proof. cbn [rmatch]. apply flat_map_app. Qed.

Lemma rmatch_seq_eps (k : regex) (s : pystr) :
  rmatch fl n (Seq Eps k) s = rmatch fl n k s.
Proof. cbn [rmatch flat_map]. apply app_nil_r. Qed.

Lemma rmatch_seq_lit (p : codepoint) (k : regex) (c : codepoint) (s : pystr) :
  rmatch fl n (Seq (Lit p) k) (c :: s)
  = if lit_match fl p c then rmatch fl n k s else [].
Proof.
  cbn [rmatch]. destruct (lit_match fl p c); cbn [flat_map];
    [apply app_nil_r | reflexivity].
Qed.

Lemma rmatch_seq_cset (cs : list cset_item) (k : regex) (c : codepoint) (s : pystr) :
  rmatch fl n (Seq (CSet cs) k) (c :: s)
  = if cset_match fl cs c then rmatch fl n k s else [].
Proof.
  cbn [rmatch]. destruct (cset_match fl cs c); cbn [flat_map];
    [apply app_nil_r | reflexivity].
Qed.

Lemma rmatch_seq_bol (k : regex) (s : pystr) :
  List.length s = n -> rmatch fl n (Seq Bol k) s = rmatch fl n k s.
Proof.
  intros H. cbn [rmatch]. rewrite (proj2 (Nat.eqb_eq _ _) H).
  cbn [flat_map]. apply app_nil_r.
Qed.

End MatcherSteps.

(** The three markup patterns start with [<]. *)
Lemma thinking_block_needs_lt (n : nat) (c : codepoint) (s : pystr) :
  c <> 60 -> rmatch re_flags n thinking_block (c :: s) = [].
Proof.
  intros Hc. unfold thinking_block.
  change (py "<thinking>") with (60 :: py "thinking>"). cbn [lits].
  do 2 apply rmatch_seq_nil. apply rmatch_lit_false, lit_lt, Hc.
Qed.

Lemma reasoning_block_needs_lt (n : nat) (c : codepoint) (s : pystr) :
  c <> 60 -> rmatch re_flags n reasoning_block (c :: s) = [].
Proof.
  intros Hc. unfold reasoning_block.
  change (py "<reasoning>") with (60 :: py "reasoning>"). cbn [lits].
  do 2 apply rmatch_seq_nil. apply rmatch_lit_false, lit_lt, Hc.
Qed.

Lemma bare_tag_needs_lt (n : nat) (c : codepoint) (s : pystr) :
  c <> 60 -> rmatch re_flags n bare_tag (c :: s) = [].
Proof.
  intros Hc. unfold bare_tag.
  apply rmatch_seq_nil. apply rmatch_lit_false, lit_lt, Hc.
Qed.

Lemma apply_patterns_markup (text : pystr) :
  apply_patterns text = re_sub re_flags leading_filler [] (remove_markup text).
Proof. reflexivity. Qed.

(** Markup cannot start inside a prefix without [<]. *)
Lemma remove_markup_prefix (p rest : pystr) :
  ~ In 60 p -> remove_markup (p ++ rest) = p ++ remove_markup rest.
Proof.
  intros Hp. unfold remove_markup.
  cbn [firstn patterns_to_remove fold_left fst snd].
  assert (Hc : forall c, In c p -> c <> 60) by (intros c Hc ->; contradiction).
  rewrite (@re_sub_prefix re_flags thinking_block [] p rest)
    by (try reflexivity; intros; apply thinking_block_needs_lt; auto).
  rewrite (@re_sub_prefix re_flags reasoning_block [] p _)
    by (try reflexivity; intros; apply reasoning_block_needs_lt; auto).
  rewrite (@re_sub_prefix re_flags bare_tag [] p _)
    by (try reflexivity; intros; apply bare_tag_needs_lt; auto).
  reflexivity.
Qed.

Lemma colon_space_set (c : codepoint) :
  cset_match re_flags [CChar 58; CSpace] c = colon_or_space c.
Proof.
  unfold cset_match, cset_has, colon_or_space, cp_eqb.
  cbn [IGNORECASE re_flags existsb item_has]. unfold cp_eqb.
  change (isspace 105) with false. change (isspace 115) with false.
  change (58 =? 105) with false. change (58 =? 115) with false.
  cbn [orb andb]. rewrite !orb_false_r.
  rewrite (N.eqb_sym 58).
  destruct (sre_lower_cases c) as [[H E]|[[H E]|[[H E]|(H & ? & ? & E)]]];
    rewrite E; try reflexivity.
  - rewrite (@isspace_false c), (@isspace_false (c + 32)) by lia.
    rewrite !orb_false_r.
    destruct (N.eqb_spec (c + 32) 58); destruct (N.eqb_spec c 58); try reflexivity; lia.
  - subst c; reflexivity.
  - subst c; reflexivity.
Qed.

(** Splits [H : map ascii_lower p = l], [l] a closed list, into one
    equation per character of [p]. *)
Ltac explode p H :=
  match type of H with
  | _ = ?r => let r' := eval vm_compute in r in change r with r' in H
  end;
  repeat (let c := fresh "c" in
          let Hc := fresh "Hc" in
          destruct p as [|c p]; [discriminate H|];
          cbn [map] in H; injection H as Hc H);
  destruct p; [clear H | discriminate H].

Ltac lit_value :=
  match goal with
  | Hc : ascii_lower ?c = ?l |- context [lit_match re_flags ?p ?c] =>
      rewrite (@lit_of_lower p _ _ Hc);
      let b := eval vm_compute in (lit_match re_flags p l) in
      change (lit_match re_flags p l) with b;
      cbv iota
  end.

Ltac match_steps :=
  repeat first
    [ rewrite rmatch_seq_assoc
    | rewrite rmatch_seq_alt
    | rewrite rmatch_seq_eps
    | rewrite rmatch_seq_lit; lit_value ].

Lemma filler_phrase_match (n : nat) (k : regex) (p rest : pystr) :
  In (map ascii_lower p) filler_phrases ->
  rmatch re_flags n (Seq filler_phrase k) (p ++ rest) = rmatch re_flags n k rest.
Proof.
  intros H.
  let r := eval vm_compute in filler_phrase in change filler_phrase with r.
  destruct H as [H|[H|[H|[H|[H|[H|[]]]]]]]; symmetry in H;
    explode p H; cbn [app]; match_steps;
    cbn [app]; rewrite ?app_nil_r; reflexivity.
Qed.

(** At the beginning of a text that starts with a filler phrase, in any
    letter case, the fourth pattern matches the phrase and the colons and
    whitespace after it. *)
Lemma leading_filler_head (p rest : pystr) :
  In (map ascii_lower p) filler_phrases ->
  exists tl,
    rmatch re_flags (List.length (p ++ rest)) leading_filler (p ++ rest)
    = drop_while colon_or_space rest :: tl.
Proof.
  intros H. unfold leading_filler.
  rewrite rmatch_seq_bol by reflexivity.
  rewrite (filler_phrase_match _ _ p rest H).
  destruct (star_cset_head re_flags (List.length (p ++ rest))
              [CChar 58; CSpace] rest) as [tl E].
  exists tl. rewrite E. f_equal.
  clear. induction rest as [|c t IH]; [reflexivity|].
  cbn [drop_while]. rewrite colon_space_set, IH. reflexivity.
Qed.

Lemma filler_nonempty (p : pystr) :
  In (map ascii_lower p) filler_phrases -> p <> [].
Proof.
  intros H ->. cbn in H.
  repeat (destruct H as [H|H]; [discriminate H|]). exact H.
Qed.

(** The fourth rewrite on such a text. *)
Lemma leading_filler_removed (p rest : pystr) :
  In (map ascii_lower p) filler_phrases ->
  re_sub re_flags leading_filler [] (p ++ rest) = drop_while colon_or_space rest.
Proof.
  intros H. unfold re_sub.
  destruct (leading_filler_head p rest H) as [tl E].
  destruct p as [|c p]; [exfalso; eapply filler_nonempty; eauto|].
  rewrite <- app_comm_cons in *. rewrite sub_scan_cons, E. cbn [app].
  pose proof (drop_while_length colon_or_space rest) as Hl.
  assert (Hlen : (List.length (c :: p ++ rest)
                  - List.length (drop_while colon_or_space rest)
                  = S (List.length p
                       + (List.length rest
                          - List.length (drop_while colon_or_space rest))))%nat).
  { cbn [List.length]. rewrite length_app. lia. }
  rewrite Hlen.
  rewrite sub_scan_skip by (rewrite length_app; lia).
  rewrite skipn_app.
  rewrite skipn_all2 by lia.
  replace (List.length p
           + (List.length rest - List.length (drop_while colon_or_space rest))
           - List.length p)%nat
    with (List.length rest - List.length (drop_while colon_or_space rest))%nat by lia.
  rewrite skipn_drop_while. cbn [app].
  apply sub_scan_past_bol. cbn [List.length]. rewrite length_app. lia.
Qed.

(** C7, as the code has it.  A text that starts with "Here is", "Here are",
    "Here" U+2019 "s", "Based on", "The answer is" or "In summary", in any
    letter case, is cleaned as the text after the phrase: the markup is
    removed from it, then the colons and whitespace at its start, and what
    is left gets the whitespace and first-letter treatment. *)
Theorem filler_phrase_removed (U : Unicode) (p rest : pystr) :
  In (map ascii_lower p) filler_phrases ->
  clean_response U (VStr (p ++ rest))
  = VStr (capitalize_first U
            (collapse_whitespace
               (drop_while colon_or_space (remove_markup rest)))).
Proof.
  intros H.
  assert (Hlt : ~ In 60 p).
  { intros Hin. apply (in_map ascii_lower) in Hin.
    change (ascii_lower 60) with 60 in Hin.
    destruct H as [H|[H|[H|[H|[H|[H|[]]]]]]]; rewrite <- H in Hin;
      vm_compute in Hin; intuition discriminate. }
  destruct p as [|c p]; [exfalso; eapply filler_nonempty; eauto|].
  cbn [clean_response truthy app]. unfold clean_text.
  rewrite app_comm_cons, apply_patterns_markup, remove_markup_prefix by assumption.
  rewrite leading_filler_removed by assumption. reflexivity.
Qed.

(** ** Whitespace *)

Lemma space_set (c : codepoint) : cset_match no_flags [CSpace] c = isspace c.
Proof.
  unfold cset_match; cbn [IGNORECASE no_flags cset_has existsb item_has].
  apply orb_false_r.
Qed.

Lemma lstrip_drop_while (s : pystr) :
  drop_while (cset_match no_flags [CSpace]) s = lstrip s.
Proof.
  induction s as [|c t IH]; [reflexivity|].
  cbn [drop_while lstrip]. rewrite space_set.
  destruct (isspace c); [apply IH | reflexivity].
Qed.

Lemma lstrip_length (s : pystr) : (List.length (lstrip s) <= List.length s)%nat.
Proof. rewrite <- lstrip_drop_while. apply drop_while_length. Qed.

Lemma skipn_lstrip (s : pystr) :
  skipn (List.length s - List.length (lstrip s)) s = lstrip s.
Proof. rewrite <- !lstrip_drop_while. apply skipn_drop_while. Qed.

Lemma squeeze_nil : squeeze [] = [].
Proof. reflexivity. Qed.

Lemma squeeze_scan (n : nat) (s : pystr) :
  sub_scan no_flags n (Plus (CSet [CSpace])) [32] 0 s = squeeze s.
Proof. unfold squeeze, re_sub. apply sub_scan_bol_free; reflexivity. Qed.

Lemma squeeze_keep (c : codepoint) (t : pystr) :
  isspace c = false -> squeeze (c :: t) = c :: squeeze t.
Proof.
  intros Hc. unfold squeeze at 1, re_sub. rewrite sub_scan_cons.
  unfold Plus at 1. rewrite rmatch_seq_cset, space_set, Hc.
  rewrite squeeze_scan. reflexivity.
Qed.

Lemma squeeze_space (c : codepoint) (t : pystr) :
  isspace c = true -> squeeze (c :: t) = 32 :: squeeze (lstrip t).
Proof.
  intros Hc. unfold squeeze at 1, re_sub. rewrite sub_scan_cons.
  unfold Plus at 1. rewrite rmatch_seq_cset, space_set, Hc.
  destruct (star_cset_head no_flags (List.length (c :: t)) [CSpace] t) as [tl E].
  rewrite E, lstrip_drop_while.
  pose proof (lstrip_length t) as Hl.
  replace (List.length (c :: t) - List.length (lstrip t))%nat
    with (S (List.length t - List.length (lstrip t))) by (cbn [List.length]; lia).
  rewrite sub_scan_skip by lia.
  rewrite skipn_lstrip, squeeze_scan. reflexivity.
Qed.

Lemma head_clean_lstrip (s : pystr) : head_clean (lstrip s) = true.
Proof.
  induction s as [|c t IH]; [reflexivity|]. cbn [lstrip].
  destruct (isspace c) eqn:E; [assumption | cbn [head_clean]; rewrite E; reflexivity].
Qed.

Lemma lstrip_fixed (s : pystr) : head_clean s = true -> lstrip s = s.
Proof.
  destruct s as [|c t]; [reflexivity|]. cbn [head_clean lstrip].
  intros H; apply negb_true_iff in H; rewrite H; reflexivity.
Qed.

Lemma lstrip_suffix (s : pystr) : exists a, s = a ++ lstrip s.
Proof.
  induction s as [|c t [a IH]]; [exists []; reflexivity|]. cbn [lstrip].
  destruct (isspace c); [exists (c :: a); cbn [app]; f_equal; exact IH
                        | exists []; reflexivity].
Qed.

Lemma rstrip_prefix (s : pystr) : exists b, s = rstrip s ++ b.
Proof.
  unfold rstrip. destruct (lstrip_suffix (rev s)) as [a E].
  exists (rev a). rewrite <- rev_app_distr, <- E, rev_involutive. reflexivity.
Qed.

Lemma rstrip_fixed (s : pystr) : head_clean (rev s) = true -> rstrip s = s.
Proof. intros H; unfold rstrip; rewrite (@lstrip_fixed _ H); apply rev_involutive. Qed.

Lemma head_clean_app (l m : pystr) : l <> [] -> head_clean (l ++ m) = head_clean l.
Proof. destruct l; [congruence | reflexivity]. Qed.

Lemma head_clean_rstrip (s : pystr) : head_clean s = true -> head_clean (rstrip s) = true.
Proof.
  intros H. destruct (rstrip_prefix s) as [b E].
  destruct (rstrip s) as [|c r] eqn:Er; [reflexivity|].
  rewrite E in H. exact H.
Qed.

Lemma squeezed_tail (c : codepoint) (t : pystr) : squeezed (c :: t) = true -> squeezed t = true.
Proof. cbn [squeezed]; intros H; apply andb_true_iff in H; tauto. Qed.

Lemma squeezed_lstrip (s : pystr) : squeezed s = true -> squeezed (lstrip s) = true.
Proof.
  induction s as [|c t IH]; [auto|]. intros H. cbn [lstrip].
  destruct (isspace c); [apply IH; eapply squeezed_tail; eauto | assumption].
Qed.

Lemma squeezed_app_l (a b : pystr) : squeezed (a ++ b) = true -> squeezed a = true.
Proof.
  induction a as [|c a IH]; [reflexivity|].
  cbn [app squeezed]. intros H; apply andb_true_iff in H as [H1 H2].
  rewrite (IH H2), andb_true_r.
  destruct a as [|d a]; [|exact H1].
  cbn [head_clean]. rewrite andb_true_r.
  cbn [app] in H1. destruct (isspace c); cbn [negb orb] in *; [|reflexivity].
  apply andb_true_iff in H1; tauto.
Qed.

Lemma squeezed_ws_free (u rest : pystr) :
  ws_free u = true -> squeezed (u ++ rest) = squeezed rest.
Proof.
  induction u as [|c u IH]; [reflexivity|].
  cbn [ws_free forallb app squeezed]. intros H; apply andb_true_iff in H as [H1 H2].
  rewrite H1. cbn [orb andb]. apply IH, H2.
Qed.

Lemma squeeze_fixed (s : pystr) : squeezed s = true -> squeeze s = s.
Proof.
  induction s as [|c t IH]; [reflexivity|].
  cbn [squeezed]. intros H; apply andb_true_iff in H as [H1 H2].
  destruct (isspace c) eqn:E.
  - cbn [negb orb] in H1. apply andb_true_iff in H1 as [Hc Ht].
    apply N.eqb_eq in Hc. rewrite (@squeeze_space c t E), (@lstrip_fixed t Ht), (IH H2).
    rewrite Hc; reflexivity.
  - rewrite (@squeeze_keep c t E), (IH H2); reflexivity.
Qed.

Lemma head_clean_squeeze (s : pystr) : head_clean s = true -> head_clean (squeeze s) = true.
Proof.
  destruct s as [|c t]; [reflexivity|]. cbn [head_clean]. intros H.
  apply negb_true_iff in H. rewrite (@squeeze_keep c t H). cbn [head_clean].
  rewrite H; reflexivity.
Qed.

Lemma squeezed_squeeze (s : pystr) : squeezed (squeeze s) = true.
Proof.
  remember (List.length s) as n eqn:Hn.
  assert (Hle : (List.length s <= n)%nat) by lia. clear Hn.
  revert s Hle; induction n as [|n IH]; intros s Hle.
  - destruct s; [reflexivity | cbn [List.length] in Hle; lia].
  - destruct s as [|c t]; [reflexivity|]. cbn [List.length] in Hle.
    destruct (isspace c) eqn:E.
    + rewrite (@squeeze_space c t E). cbn [squeezed].
      change (isspace 32) with true. cbn [negb orb]. rewrite N.eqb_refl.
      cbn [andb]. rewrite head_clean_squeeze by apply head_clean_lstrip.
      apply IH. pose proof (lstrip_length t). lia.
    + rewrite (@squeeze_keep c t E). cbn [squeezed]. rewrite E. cbn [negb orb andb].
      apply IH. lia.
Qed.

Lemma tidy_collapse (s : pystr) : tidy (collapse_whitespace s).
Proof.
  unfold collapse_whitespace, strip. fold (squeeze s).
  repeat split.
  - destruct (rstrip_prefix (lstrip (squeeze s))) as [b E].
    apply (@squeezed_app_l _ b). rewrite <- E.
    apply squeezed_lstrip, squeezed_squeeze.
  - apply head_clean_rstrip, head_clean_lstrip.
  - unfold rstrip. rewrite rev_involutive. apply head_clean_lstrip.
Qed.

Lemma collapse_fixed (s : pystr) : tidy s -> collapse_whitespace s = s.
Proof.
  intros (H1 & H2 & H3). unfold collapse_whitespace, strip. fold (squeeze s).
  rewrite (@squeeze_fixed _ H1), (@lstrip_fixed _ H2). apply rstrip_fixed, H3.
Qed.

(** ** The first letter *)

Section FirstLetter.
Variable U : Unicode.
Hypothesis HU : upper_settles U.

Lemma upper_of_lower (c : codepoint) :
  islower U c = true ->
  exists d ds, upper U c = d :: ds
    /\ ws_free (d :: ds) = true
    /\ (islower U d = true -> upper U d = [d]).
Proof.
  unfold islower, upper. destruct (is_ascii c) eqn:Ea; [|apply HU; assumption].
  intros Hl. exists (ascii_upper c), []. 
  assert (Hc : 97 <= c <= 122)
    by (unfold ascii_islower, between in Hl; bool_to_prop Hl; lia).
  unfold ascii_upper. rewrite Hl.
  split; [reflexivity|]. split.
  - cbn [ws_free forallb]. rewrite isspace_false by lia. reflexivity.
  - replace (is_ascii (c - 32)) with true
      by (symmetry; unfold is_ascii; apply N.ltb_lt; lia).
    assert (E : ascii_islower (c - 32) = false).
    { unfold ascii_islower, between. apply andb_false_iff; left.
      apply N.leb_gt; lia. }
    rewrite E. intros Hx; discriminate Hx.
Qed.

Lemma capitalize_twice (s : pystr) :
  capitalize_first U (capitalize_first U s) = capitalize_first U s.
Proof.
  destruct s as [|c rest]; [reflexivity|]. cbn [capitalize_first].
  destruct (islower U c) eqn:E; [|cbn [capitalize_first]; rewrite E; reflexivity].
  destruct (upper_of_lower c E) as (d & ds & Eu & _ & Hd). rewrite Eu.
  cbn [app capitalize_first].
  destruct (islower U d) eqn:Ed; [|reflexivity].
  rewrite (Hd eq_refl). reflexivity.
Qed.

Lemma ws_free_rev (u : pystr) : ws_free u = true -> ws_free (rev u) = true.
Proof.
  unfold ws_free. rewrite !forallb_forall. intros H x Hx.
  apply H, in_rev, Hx.
Qed.

Lemma ws_free_head (u : pystr) : ws_free u = true -> head_clean u = true.
Proof.
  destruct u; [reflexivity|]. cbn [ws_free forallb head_clean].
  intros H; apply andb_true_iff in H; tauto.
Qed.

Lemma tidy_capitalize (s : pystr) : tidy s -> tidy (capitalize_first U s).
Proof.
  intros Hs. destruct s as [|c rest]; [exact Hs|]. cbn [capitalize_first].
  destruct (islower U c) eqn:E; [|exact Hs].
  destruct (upper_of_lower c E) as (d & ds & Eu & Hw & _). rewrite Eu.
  destruct Hs as (H1 & H2 & H3). repeat split.
  - rewrite squeezed_ws_free by assumption. eapply squeezed_tail; eauto.
  - rewrite head_clean_app by discriminate. apply ws_free_head, Hw.
  - rewrite rev_app_distr. destruct rest as [|x rest'].
    + cbn [rev app]. apply ws_free_head. apply (ws_free_rev (d :: ds)), Hw.
    + cbn [rev] in H3 |- *.
      assert (Hne : rev rest' ++ [x] <> []) by (destruct (rev rest'); discriminate).
      rewrite head_clean_app in H3 by exact Hne.
      rewrite head_clean_app by exact Hne.
      exact H3.
Qed.

(** Once the rewrites find nothing more to remove, cleaning again changes
    nothing. *)
Lemma clean_text_settled (x : pystr) :
  apply_patterns (clean_text U x) = clean_text U x ->
  clean_text U (clean_text U x) = clean_text U x.
Proof.
  intros H. unfold clean_text at 1. rewrite H.
  assert (Ht : tidy (clean_text U x)) by (apply tidy_capitalize, tidy_collapse).
  rewrite (collapse_fixed Ht). unfold clean_text. apply capitalize_twice.
Qed.

End FirstLetter.

(** C3, as the code has it.  The cleaner maps the empty string to itself;
    cleaning twice gives what cleaning once gives whenever the rewrites find
    nothing to remove in the cleaned text (no markup, no filler phrase at
    its start).  The case tables are taken to upper-case as described by
    [upper_settles]. *)
Theorem clean_idempotent_once_settled (U : Unicode) (v : pyval) :
  upper_settles U ->
  clean_response U (VStr []) = VStr []
  /\ (settled (clean_response U v) ->
      clean_response U (clean_response U v) = clean_response U v).
Proof.
  intros HU. split; [reflexivity|].
  destruct v as [| | |s| |]; try reflexivity.
  destruct s as [|c s]; [reflexivity|].
  cbn [clean_response truthy settled]. intros Hs.
  destruct (clean_text U (c :: s)) as [|d y] eqn:E; [reflexivity|].
  cbn [truthy]. rewrite <- E in *. rewrite (clean_text_settled HU _ Hs). reflexivity.
Qed.

(** Tables that know no lower-case character outside ASCII satisfy the
    assumption. *)
Lemma ascii_only_settles : upper_settles ascii_only.
Proof. intros c _ H. discriminate H. Qed.

(** The summary of the scenario is settled after one cleaning. *)
Lemma clean_idempotent_once_settled_witness :
  clean_response ascii_only (clean_response ascii_only (VStr raw_summary))
  = clean_response ascii_only (VStr raw_summary).
Proof.
  apply (proj2 (@clean_idempotent_once_settled ascii_only (VStr raw_summary)
                  ascii_only_settles)).
  vm_compute. reflexivity.
Defined.

(** C3 as stated fails: the filler rule removes one phrase at the start, and
    a second one behind it is removed by the next cleaning. *)
Lemma clean_not_idempotent :
  clean_response ascii_only (VStr (py "Here is Here is x")) = VStr (py "Here is x")
  /\ clean_response ascii_only (VStr (py "Here is x")) = VStr (py "X")
  /\ clean_response ascii_only
       (clean_response ascii_only (VStr (py "Here is Here is x")))
     <> clean_response ascii_only (VStr (py "Here is Here is x")).
Proof.
  split; [vm_compute; reflexivity|]. split; [vm_compute; reflexivity|].
  intros H. vm_compute in H. discriminate H.
Qed.

(** C7 as stated fails: the pattern holds the apostrophe U+2019, and a
    phrase written with the ASCII apostrophe stays. *)
Lemma ascii_apostrophe_stays :
  clean_response ascii_only (VStr (py "Here's a plan")) = VStr (py "Here's a plan")
  /\ clean_response ascii_only (VStr (py "Here" ++ [right_quote] ++ py "s a plan"))
     = VStr (py "A plan").
Proof. split; vm_compute; reflexivity. Qed.

(** An upper-case phrase, a colon and a tagged word. *)
Lemma filler_phrase_removed_witness :
  clean_response ascii_only (VStr (py "THE ANSWER IS" ++ py ": <b>four</b>"))
  = VStr (py "Four").
Proof.
  refine (eq_trans (@filler_phrase_removed ascii_only (py "THE ANSWER IS")
                      (py ": <b>four</b>") _) _);
    vm_compute; auto 10.
Defined.

Lemma filler_phrase_needs_initial (n : nat) (k : regex) (c : codepoint) (s : pystr) :
  filler_initial c = false ->
  rmatch re_flags n (Seq filler_phrase k) (c :: s) = [].
Proof.
  unfold filler_initial; cbn [existsb]. intros H.
  apply orb_false_iff in H as [H1 H]. apply orb_false_iff in H as [H2 H].
  apply orb_false_iff in H as [H3 H]. apply orb_false_iff in H as [H4 _].
  let r := eval vm_compute in filler_phrase in change filler_phrase with r.
  repeat first
    [ rewrite rmatch_seq_assoc | rewrite rmatch_seq_alt | rewrite rmatch_seq_eps
    | rewrite rmatch_seq_lit ].
  rewrite H1, H2, H3, H4. reflexivity.
Qed.

(** A sufficient condition for [settled]: no [<] in the text and no such
    letter at its start. *)
Lemma plain_text_settled (y : pystr) :
  ~ In 60 y ->
  match y with c :: _ => filler_initial c = false | [] => True end ->
  apply_patterns y = y.
Proof.
  intros Hlt Hi. rewrite apply_patterns_markup.
  assert (Hm : remove_markup y = y).
  { rewrite <- (app_nil_r y) at 1. rewrite remove_markup_prefix by assumption.
    change (remove_markup []) with (@nil codepoint). apply app_nil_r. }
  rewrite Hm. destruct y as [|c s]; [reflexivity|].
  unfold re_sub. rewrite sub_scan_cons.
  unfold leading_filler. rewrite rmatch_seq_bol by reflexivity.
  rewrite (filler_phrase_needs_initial _ _ c s Hi).
  rewrite sub_scan_past_bol by (cbn [List.length]; lia). reflexivity.
Qed.

(** ** The router *)

Open Scope Z_scope.

Section RouterFacts.
Variable U : Unicode.
Variable svc : Services.

(** Whatever the service answers, [_invoke_model] makes exactly one call. *)
Lemma invoke_model_log (msgs : list message) (tok : Z) (log : list ext_call) :
  snd (_invoke_model svc msgs tok log)
  = log ++ [CallModel (bedrock_request msgs tok)].
Proof.
  unfold _invoke_model, try_except, bind, record_call, lift, raise.
  destruct (invoke_model svc (bedrock_request msgs tok)) as [b|e]; simpl;
    [destruct (completion_text b)|]; reflexivity.
Qed.

Lemma bind_ret_log {A B} (m : M A) (f : A -> B) (log : list ext_call) :
  snd (bind m (fun x => ret (f x)) log) = snd (m log).
Proof. unfold bind, ret; destruct (m log) as [[a|e] l]; reflexivity. Qed.

Lemma try_ret_log {A} (m : M A) (h : pystr -> A) (log : list ext_call) :
  snd (try_except m (fun e => ret (h e)) log) = snd (m log).
Proof. unfold try_except, ret; destruct (m log) as [[a|e] l]; reflexivity. Qed.

(** A request whose action, lower-cased, is one of the four AI actions goes
    to [_handle_ai_actions]. *)
Lemma route_ai (event body : pydict) (action : pystr) :
  _parse_request_body svc event [] = (Ok (VDict body), []) ->
  dict_get body (py "action") (VStr []) = VStr action ->
  In (lower U action) ai_actions ->
  route U svc event [] = _handle_ai_actions svc (lower U action) body [].
Proof.
  intros Hparse Hact Hin.
  unfold route, bind at 1. rewrite Hparse.
  unfold lift at 1, bind at 1; simpl as_dict.
  unfold bind at 1, lift at 1. rewrite Hact; simpl str_lower.
  destruct Hin as [H|[H|[H|[H|[]]]]]; rewrite <- H; reflexivity.
Qed.

Lemma handle_ai_blank (action : pystr) (body : pydict) (t : pystr)
    (log : list ext_call) :
  dict_get body (py "text") (VStr []) = VStr t ->
  forallb isspace (firstn 5000 t) = true ->
  _handle_ai_actions svc action body log
  = (Ok (build_error_response (py "No text content provided") 400), log).
Proof.
  intros Ht Hb. unfold _handle_ai_actions, bind, lift.
  rewrite Ht; cbn [slice_to str_strip].
  rewrite (strip_blank _ Hb); reflexivity.
Qed.

End RouterFacts.

(** C10.  The text is cut to 5000 characters before it is tested for being
    empty: an AI-action request whose first 5000 characters of text are all
    whitespace gets the validation error "No text content provided" and the
    model is not called, whatever follows those characters. *)
Theorem blank_prefix_rejected (U : Unicode) (svc : Services)
    (event body : pydict) (action t : pystr) :
  _parse_request_body svc event [] = (Ok (VDict body), []) ->
  dict_get body (py "action") (VStr []) = VStr action ->
  In (lower U action) ai_actions ->
  dict_get body (py "text") (VStr []) = VStr t ->
  forallb isspace (firstn 5000 t) = true ->
  run (process_request U svc event)
  = (Ok (build_error_response (py "No text content provided") 400), []).
Proof.
  intros Hparse Hact Hin Ht Hb.
  unfold run, process_request, try_except.
  rewrite (route_ai U svc event Hparse Hact Hin).
  rewrite (@handle_ai_blank svc _ body t [] Ht Hb). reflexivity.
Qed.

Section AiActions.
Variable svc : Services.
Variables (body : pydict) (t : pystr) (log : list ext_call).
Hypothesis Htext : dict_get body (py "text") (VStr []) = VStr t.
Hypothesis Hdoc : nonempty (strip (firstn 5000 t)) = true.

Let doc : pyval := VStr (firstn 5000 t).

Ltac enter :=
  unfold _handle_ai_actions, bind at 1, lift at 1;
  rewrite Htext; cbn [slice_to];
  unfold bind at 1, lift at 1; cbn [str_strip];
  rewrite Hdoc; cbn [negb].

Lemma handle_ai_qa_missing :
  truthy (dict_get body (py "input") (VStr [])) = false ->
  _handle_ai_actions svc (py "qa") body log
  = (Ok (build_error_response (py "No question provided") 400), log).
Proof. intros Hq. enter. cbv zeta. rewrite Hq. reflexivity. Qed.

Lemma handle_ai_qa :
  truthy (dict_get body (py "input") (VStr [])) = true ->
  _handle_ai_actions svc (py "qa") body log
  = bind (handle_question_answer svc doc (dict_get body (py "input") (VStr [])))
         (fun result => ret (build_success_response result (py "qa"))) log.
Proof. intros Hq. enter. cbv zeta. rewrite Hq. reflexivity. Qed.

Lemma handle_ai_summarize :
  _handle_ai_actions svc (py "summarize") body log
  = bind (generate_summary svc doc)
         (fun result => ret (build_success_response result (py "summarize"))) log.
Proof. enter. reflexivity. Qed.

Lemma handle_ai_quiz :
  _handle_ai_actions svc (py "quiz") body log
  = bind (generate_quiz svc doc)
         (fun result => ret (build_success_response result (py "quiz"))) log.
Proof. enter. reflexivity. Qed.

Lemma handle_ai_feedback_missing :
  forallb truthy [dict_get body (py "question") (VStr []);
                  dict_get body (py "user_answer") (VStr []);
                  dict_get body (py "correct_answer") (VStr [])] = false ->
  _handle_ai_actions svc (py "feedback") body log
  = (Ok (build_error_response
           (py "Missing required fields for feedback: question, user_answer, correct_answer")
           400), log).
Proof. intros Hq. enter. cbv zeta. rewrite Hq. reflexivity. Qed.

(** With all three fields given, the call of [provide_feedback] raises: the
    class has no method of that name. *)
Lemma handle_ai_feedback :
  forallb truthy [dict_get body (py "question") (VStr []);
                  dict_get body (py "user_answer") (VStr []);
                  dict_get body (py "correct_answer") (VStr [])] = true ->
  _handle_ai_actions svc (py "feedback") body log
  = (Raise (attribute_error (py "AIResponseHandler") (py "provide_feedback")), log).
Proof. intros Hq. enter. cbv zeta. rewrite Hq. reflexivity. Qed.

End AiActions.

Lemma spec_truncate_firstn (t : pystr) : spec_truncate t = firstn 5000 t.
Proof.
  unfold spec_truncate. destruct (Nat.ltb_spec 5000 (List.length t)); [reflexivity|].
  symmetry; apply firstn_all2; assumption.
Qed.

(** C5.  For an AI action the prompt is built from the text after it was cut
    to 5000 characters: the one call of the model carries the prompt of the
    action over the first 5000 characters of a longer text, and over the
    whole text when it is within the bound; the feedback action builds no
    prompt from the text. *)
Theorem prompt_uses_truncated_text (U : Unicode) (svc : Services)
    (event body : pydict) (action t : pystr) :
  _parse_request_body svc event [] = (Ok (VDict body), []) ->
  dict_get body (py "action") (VStr []) = VStr action ->
  dict_get body (py "text") (VStr []) = VStr t ->
  nonempty (strip (spec_truncate t)) = true ->
  let doc := VStr (spec_truncate t) in
  let question := dict_get body (py "input") (VStr []) in
  let calls := snd (run (process_request U svc event)) in
  (lower U action = py "qa" -> truthy question = true ->
   calls = [CallModel (bedrock_request (user_message (qa_prompt svc doc question)) 300)])
  /\ (lower U action = py "summarize" ->
      calls = [CallModel (bedrock_request (user_message (summary_prompt svc doc)) 400)])
  /\ (lower U action = py "quiz" ->
      calls = [CallModel (bedrock_request (user_message (quiz_prompt svc doc)) 600)])
  /\ (lower U action = py "feedback" -> calls = []).
Proof.
  intros Hparse Hact Ht Hdoc doc question calls.
  subst doc calls. rewrite spec_truncate_firstn in *.
  unfold run, process_request. rewrite try_ret_log.
  repeat split.
  - intros Ha Hq.
    rewrite (route_ai U svc event Hparse Hact) by (rewrite Ha; simpl; auto).
    rewrite Ha, (handle_ai_qa svc _ [] Ht Hdoc Hq), bind_ret_log.
    apply invoke_model_log.
  - intros Ha.
    rewrite (route_ai U svc event Hparse Hact) by (rewrite Ha; simpl; auto).
    rewrite Ha, (handle_ai_summarize svc _ [] Ht Hdoc), bind_ret_log.
    apply invoke_model_log.
  - intros Ha.
    rewrite (route_ai U svc event Hparse Hact) by (rewrite Ha; simpl; auto).
    rewrite Ha, (handle_ai_quiz svc _ [] Ht Hdoc), bind_ret_log.
    apply invoke_model_log.
  - intros Ha.
    rewrite (route_ai U svc event Hparse Hact) by (rewrite Ha; simpl; auto).
    rewrite Ha.
    destruct (forallb truthy [dict_get body (py "question") (VStr []);
                              dict_get body (py "user_answer") (VStr []);
                              dict_get body (py "correct_answer") (VStr [])]) eqn:Hq.
    + rewrite (handle_ai_feedback svc _ [] Ht Hdoc Hq); reflexivity.
    + rewrite (handle_ai_feedback_missing svc _ [] Ht Hdoc Hq); reflexivity.
Qed.

Lemma nonempty_false (s : pystr) : nonempty s = false -> s = [].
Proof. destruct s; [reflexivity | discriminate]. Qed.

(** C6, as the code has it.  For each of the four AI actions a request is
    answered with a validation error (status 400) and without any call of
    the model when its text is blank or whitespace-only within the first
    5000 characters, when the action is [qa] and the question is empty, or
    when the action is [feedback] and one of question, user answer and
    correct answer is empty. *)
Theorem missing_input_rejected (U : Unicode) (svc : Services)
    (event body : pydict) (action t : pystr) :
  _parse_request_body svc event [] = (Ok (VDict body), []) ->
  dict_get body (py "action") (VStr []) = VStr action ->
  dict_get body (py "text") (VStr []) = VStr t ->
  (In (lower U action) ai_actions /\ forallb isspace (firstn 5000 t) = true)
  \/ (lower U action = py "qa"
      /\ truthy (dict_get body (py "input") (VStr [])) = false)
  \/ (lower U action = py "feedback"
      /\ (truthy (dict_get body (py "question") (VStr [])) = false
          \/ truthy (dict_get body (py "user_answer") (VStr [])) = false
          \/ truthy (dict_get body (py "correct_answer") (VStr [])) = false)) ->
  exists msg log,
    run (process_request U svc event) = (Ok (build_error_response msg 400), log)
    /\ model_calls log = 0%nat.
Proof.
  intros Hparse Hact Ht Hcase.
  assert (Hin : In (lower U action) ai_actions).
  { destruct Hcase as [[H _]|[[H _]|[H _]]]; [assumption| |];
      rewrite H; simpl; auto. }
  exists (match nonempty (strip (firstn 5000 t)), pystr_eqb (lower U action) (py "qa") with
          | false, _ => py "No text content provided"
          | true, true => py "No question provided"
          | true, false =>
              py "Missing required fields for feedback: question, user_answer, correct_answer"
          end), [].
  split; [|reflexivity].
  unfold run, process_request, try_except.
  rewrite (route_ai U svc event Hparse Hact Hin).
  destruct (nonempty (strip (firstn 5000 t))) eqn:Hdoc.
  2:{ apply nonempty_false in Hdoc.
      unfold _handle_ai_actions, bind, lift.
      rewrite Ht; cbn [slice_to str_strip]. rewrite Hdoc. reflexivity. }
  destruct Hcase as [[_ Hb]|[[Ha Hq]|[Ha Hq]]].
  - rewrite (strip_blank _ Hb) in Hdoc. discriminate Hdoc.
  - rewrite Ha, (handle_ai_qa_missing svc _ [] Ht Hdoc Hq). reflexivity.
  - rewrite Ha, (@handle_ai_feedback_missing svc body t [] Ht Hdoc); [reflexivity|].
    cbn [forallb]. destruct Hq as [H|[H|H]]; rewrite H;
      rewrite ?andb_false_r, ?andb_false_l; reflexivity.
Qed.

(** C1, what the code does.  A feedback request with a text and with
    question, user answer and correct answer all given never gets its
    feedback: the router calls [provide_feedback], which the handler class
    does not define, and answers with status 500 without calling the
    model. *)
Theorem feedback_request_fails (U : Unicode) (svc : Services)
    (event body : pydict) (action t : pystr) :
  _parse_request_body svc event [] = (Ok (VDict body), []) ->
  dict_get body (py "action") (VStr []) = VStr action ->
  lower U action = py "feedback" ->
  dict_get body (py "text") (VStr []) = VStr t ->
  nonempty (strip (firstn 5000 t)) = true ->
  truthy (dict_get body (py "question") (VStr [])) = true ->
  truthy (dict_get body (py "user_answer") (VStr [])) = true ->
  truthy (dict_get body (py "correct_answer") (VStr [])) = true ->
  run (process_request U svc event)
  = (Ok (build_error_response
           (py "Internal server error: 'AIResponseHandler' object has no attribute 'provide_feedback'")
           500), []).
Proof.
  intros Hparse Hact Ha Ht Hdoc Hq Hu Hc.
  unfold run, process_request, try_except.
  rewrite (route_ai U svc event Hparse Hact) by (rewrite Ha; simpl; auto).
  rewrite Ha, (@handle_ai_feedback svc body t [] Ht Hdoc); [reflexivity|].
  cbn [forallb]. rewrite Hq, Hu, Hc. reflexivity.
Qed.

Ltac keys_differ := let H := fresh in intro H; vm_compute in H; discriminate H.

Lemma handle_pdf_action_irrelevant (svc : Services) (body : pydict) (v w : pyval) :
  _handle_pdf_processing svc (dict_set body (py "action") v)
  = _handle_pdf_processing svc (dict_set body (py "action") w).
Proof.
  unfold _handle_pdf_processing.
  rewrite !dict_get_set_other by keys_differ. reflexivity.
Qed.

Lemma handle_ai_action_irrelevant (svc : Services) (action : pystr)
    (body : pydict) (v w : pyval) :
  _handle_ai_actions svc action (dict_set body (py "action") v)
  = _handle_ai_actions svc action (dict_set body (py "action") w).
Proof.
  unfold _handle_ai_actions.
  rewrite !dict_get_set_other by keys_differ. reflexivity.
Qed.

(** Lower-casing an ASCII action once is enough: the lower-case form of an
    action has the lower case of the action. *)
Lemma lower_ascii_twice (U : Unicode) (a : pystr) :
  forallb is_ascii a = true -> lower U (lower U a) = lower U a.
Proof.
  intros Ha. unfold lower. rewrite Ha.
  assert (H : forall c, is_ascii c = true ->
                        is_ascii (ascii_lower c) = true
                        /\ ascii_lower (ascii_lower c) = ascii_lower c).
  { intros c Hc. unfold ascii_lower.
    destruct (ascii_isupper c) eqn:E; [|rewrite E; auto].
    assert (Hr : (65 <= c <= 90)%N)
      by (unfold ascii_isupper, between in E; bool_to_prop E; lia).
    assert (E' : ascii_isupper (c + 32)%N = false).
    { unfold ascii_isupper, between. apply andb_false_iff; right.
      apply N.leb_gt; lia. }
    rewrite E'. unfold is_ascii in *. apply N.ltb_lt in Hc.
    split; [apply N.ltb_lt; lia | reflexivity]. }
  assert (Hall : forallb is_ascii (map ascii_lower a) = true
                 /\ map ascii_lower (map ascii_lower a) = map ascii_lower a).
  { induction a as [|c a IH]; [split; reflexivity|].
    cbn [forallb] in Ha. apply andb_true_iff in Ha as [Hc Ha'].
    destruct (IH Ha') as [I1 I2]. destruct (H c Hc) as [H1 H2].
    cbn [map forallb]. rewrite H1, I1, H2, I2. split; reflexivity. }
  destruct Hall as [H1 H2]. rewrite H1. exact H2.
Qed.

(** C9.  The action is lower-cased before it is matched: two requests that
    differ only in the letter case of the action (their actions have the
    same lower case) are dispatched alike and get the same response, with
    the same external calls. *)
Theorem dispatch_ignores_case (U : Unicode) (svc : Services)
    (e1 e2 body : pydict) (a1 a2 : pystr) :
  _parse_request_body svc e1 []
  = (Ok (VDict (dict_set body (py "action") (VStr a1))), []) ->
  _parse_request_body svc e2 []
  = (Ok (VDict (dict_set body (py "action") (VStr a2))), []) ->
  lower U a1 = lower U a2 ->
  run (process_request U svc e1) = run (process_request U svc e2).
Proof.
  intros H1 H2 Hl.
  unfold run, process_request, try_except.
  assert (Hr : route U svc e1 [] = route U svc e2 []).
  { unfold route.
    unfold bind at 1. rewrite H1.
    match goal with
    | |- _ = bind ?m ?k [] =>
        change (bind m k []) with
          (match m [] with
           | (Ok a, log') => k a log'
           | (Raise e, log') => (Raise e, log')
           end)
    end.
    rewrite H2.
    unfold bind, lift; cbn [as_dict].
    rewrite !dict_get_set_same. cbn [str_lower]. rewrite Hl.
    rewrite (handle_pdf_action_irrelevant svc body (VStr a1) (VStr a2)).
    rewrite (handle_ai_action_irrelevant svc (lower U a2) body (VStr a1) (VStr a2)).
    reflexivity. }
  rewrite Hr. reflexivity.
Qed.

Lemma bind_ret_ok {A} (m : M A) (f : A -> response) (log log' : list ext_call)
    (r : response) :
  bind m (fun x => ret (f x)) log = (Ok r, log') -> exists x, r = f x.
Proof.
  unfold bind, ret. destruct (m log) as [[a|e] l]; intros H; inversion H.
  eexists; reflexivity.
Qed.

Lemma handle_pdf_ok (svc : Services) (body : pydict) (log log' : list ext_call)
    (r : response) :
  _handle_pdf_processing svc body log = (Ok r, log') ->
  is_success_response r \/ is_error_response 400 r.
Proof.
  unfold _handle_pdf_processing. intros H.
  destruct (negb (truthy (dict_get body (py "pdf_data") (VStr [])))).
  - inversion H. right; eexists; reflexivity.
  - apply bind_ret_ok in H as [x ->]. left; do 2 eexists; reflexivity.
Qed.

Lemma handle_ai_ok (svc : Services) (action : pystr) (body : pydict)
    (log log' : list ext_call) (r : response) :
  _handle_ai_actions svc action body log = (Ok r, log') ->
  is_success_response r \/ is_error_response 400 r.
Proof.
  unfold _handle_ai_actions. unfold bind at 1, lift at 1.
  destruct (slice_to 5000 (dict_get body (py "text") (VStr []))) as [text|e];
    [|discriminate].
  unfold bind at 1, lift at 1.
  destruct (str_strip text) as [stripped|e]; [|discriminate].
  cbv zeta. intros H.
  repeat match type of H with
         | (if ?b then _ else _) _ = _ => destruct b
         end;
    try (inversion H; right; eexists; reflexivity);
    try (apply bind_ret_ok in H as [x ->]; left; do 2 eexists; reflexivity).
Qed.

Lemma route_ok (U : Unicode) (svc : Services) (event : pydict)
    (log log' : list ext_call) (r : response) :
  route U svc event log = (Ok r, log') ->
  is_success_response r \/ is_error_response 400 r.
Proof.
  unfold route. unfold bind at 1.
  destruct (_parse_request_body svc event log) as [[parsed|e] l]; [|discriminate].
  unfold bind at 1, lift at 1.
  destruct (as_dict parsed) as [body|e]; [|discriminate].
  unfold bind at 1, lift at 1.
  destruct (str_lower U (dict_get body (py "action") (VStr []))) as [action|e];
    [|discriminate].
  intros H.
  destruct (pystr_eqb action (py "process_pdf")).
  - eapply handle_pdf_ok; eassumption.
  - destruct (existsb (pystr_eqb action) ai_actions).
    + eapply handle_ai_ok; eassumption.
    + inversion H. right; eexists; reflexivity.
Qed.

(** C8, as the code has it.  Every request is answered with a response that
    has a status code and a success flag, and no exception gets past the
    router.  A success (status 200) carries the action and the result; an
    error carries a message and no action.  An exception raised while the
    request is handled gives status 500 with its text; an error found
    without an exception has status 400. *)
Theorem router_always_answers (U : Unicode) (svc : Services) (event : pydict) :
  exists r log,
    run (process_request U svc event) = (Ok r, log)
    /\ ((statusCode r = 200
         /\ dict_find (body r) (py "success") = Some (VBool true)
         /\ (exists a, dict_find (body r) (py "action") = Some (VStr a))
         /\ (exists d, dict_find (body r) (py "response") = Some d))
        \/ ((statusCode r = 400 \/ statusCode r = 500)
            /\ dict_find (body r) (py "success") = Some (VBool false)
            /\ (exists m, dict_find (body r) (py "error") = Some (VStr m))
            /\ dict_find (body r) (py "action") = None))
    /\ (forall e l, run (route U svc event) = (Raise e, l) ->
        r = build_error_response (py "Internal server error: " ++ e) 500)
    /\ (forall r' l, run (route U svc event) = (Ok r', l) ->
        r = r' /\ (statusCode r = 200 \/ statusCode r = 400)).
Proof.
  unfold run, process_request, try_except.
  destruct (route U svc event []) as [[r|e] l] eqn:Hr.
  - exists r, l. split; [reflexivity|].
    destruct (route_ok U svc event [] Hr) as [(d & a & ->)|(m & ->)].
    + split; [left; repeat split; eexists; reflexivity|].
      split; [intros ? ? H; discriminate H|].
      intros r' l' H; inversion H; subst. split; [reflexivity | left; reflexivity].
    + split; [right; repeat split; [left; reflexivity | eexists; reflexivity]|].
      split; [intros ? ? H; discriminate H|].
      intros r' l' H; inversion H; subst. split; [reflexivity | right; reflexivity].
  - eexists; exists l. split; [reflexivity|].
    split; [right; repeat split; [right; reflexivity | eexists; reflexivity]|].
    split; [intros e' l' H; inversion H; reflexivity | intros ? ? H; discriminate H].
Qed.

(** ** Requests of the scenarios *)

(** C4.  The summarize scenario end to end: with a model that answers
    [raw_summary], the router gives a success response for the action
    [summarize] after one call of the model, and the text the client shows
    for it, cleaned, is "A summary: plants use light.". *)
Theorem summarize_round_trip (U : Unicode) :
  let svc := stub_services raw_summary in
  run (process_request U svc summarize_request)
  = (Ok (build_success_response (VStr raw_summary) (py "summarize")),
     [CallModel (bedrock_request
                   (user_message (summary_prompt svc (VStr photosynthesis))) 400)])
  /\ clean_response U (VStr raw_summary) = VStr (py "A summary: plants use light.")
  /\ call_backend U (lambda_endpoint U svc)
       (VStr (py "summarize")) (VStr photosynthesis) (VStr [])
     = VStr (py "A summary: plants use light.").
Proof. cbv zeta. repeat split; vm_compute; reflexivity. Qed.

(** The grading scenario, with a text. *)
Lemma feedback_request_fails_witness :
  run (process_request ascii_only (stub_services (py "Well done!")) feedback_request)
  = (Ok (build_error_response
           (py "Internal server error: 'AIResponseHandler' object has no attribute 'provide_feedback'")
           500), []).
Proof.
  apply (@feedback_request_fails ascii_only (stub_services (py "Well done!"))
           feedback_request feedback_request (py "feedback")
           (py "Cells divide by mitosis."));
    reflexivity.
Defined.

(** A text whose only word comes after 5000 spaces. *)
Lemma blank_prefix_rejected_witness :
  nonempty (strip late_text) = true
  /\ run (process_request ascii_only (stub_services (py "unused")) late_text_request)
     = (Ok (build_error_response (py "No text content provided") 400), []).
Proof.
  split; [vm_compute; reflexivity|].
  apply (@blank_prefix_rejected ascii_only (stub_services (py "unused"))
           late_text_request late_text_request (py "quiz") late_text);
    try (vm_compute; reflexivity).
  simpl; auto.
Defined.

(** Of 5001 characters the prompt holds the first 5000. *)
Lemma prompt_uses_truncated_text_witness :
  snd (run (process_request ascii_only (stub_services (py "ok")) long_text_request))
  = [CallModel (bedrock_request
                  (user_message (summary_prompt (stub_services (py "ok"))
                                   (VStr (repeat 97%N 5000)))) 400)].
Proof.
  refine (proj1 (proj2 (@prompt_uses_truncated_text ascii_only
                          (stub_services (py "ok")) long_text_request
                          long_text_request (py "Summarize") long_text _ _ _ _)) _);
    vm_compute; reflexivity.
Defined.

(** A question-answering request with an empty question. *)
Lemma missing_input_rejected_witness :
  exists msg log,
    run (process_request ascii_only (stub_services (py "unused")) no_question_request)
    = (Ok (build_error_response msg 400), log)
    /\ model_calls log = 0%nat.
Proof.
  apply (@missing_input_rejected ascii_only (stub_services (py "unused"))
           no_question_request no_question_request (py "qa") photosynthesis);
    try reflexivity.
  right; left; split; reflexivity.
Defined.

(** C6 as stated fails: a question of one space is not empty for the test
    [if not question], and the model is called. *)
Lemma whitespace_question_reaches_model :
  exists r log,
    run (process_request ascii_only (stub_services (py "An answer."))
           [ (py "action", VStr (py "qa")); (py "text", VStr photosynthesis);
             (py "input", VStr (py " ")) ])
    = (Ok r, log)
    /\ statusCode r = 200 /\ model_calls log = 1%nat.
Proof. do 2 eexists. split; [vm_compute; reflexivity|]. split; reflexivity. Qed.

(** C8 as stated fails: the error response names no action. *)
Lemma error_response_has_no_action :
  exists r,
    run (process_request ascii_only (stub_services (py "unused"))
           [ (py "action", VStr (py "translate")) ])
    = (Ok r, [])
    /\ statusCode r = 400
    /\ dict_find (body r) (py "success") = Some (VBool false)
    /\ dict_find (body r) (py "action") = None.
Proof. eexists. split; [vm_compute; reflexivity|]. repeat split. Qed.

(** SUMMARIZE is dispatched as summarize. *)
Lemma dispatch_ignores_case_witness :
  run (process_request ascii_only (stub_services raw_summary)
         [ (py "text", VStr photosynthesis); (py "action", VStr (py "SUMMARIZE")) ])
  = run (process_request ascii_only (stub_services raw_summary)
           [ (py "text", VStr photosynthesis); (py "action", VStr (py "summarize")) ]).
Proof.
  apply (@dispatch_ignores_case ascii_only (stub_services raw_summary) _ _
           [ (py "text", VStr photosynthesis) ] (py "SUMMARIZE") (py "summarize"));
    reflexivity.
Defined.

(** ** The quiz parser *)

(** C2, what the code does.  The test for the start of a question uses the
    number of the question being read, so after the line "1. ..." the lines
    "2. ..." and "3. ..." are taken as more text of question 1: a
    well-formed block of three questions comes back as one entry. *)
Theorem three_questions_parse_as_one :
  _parse_quiz_questions (VStr three_questions)
  = [ (py "Q1", VStr (py "1. Q one A) x 2. Q two B) y 3. Q three C) z")) ]
  /\ dict_find (_parse_quiz_questions (VStr three_questions)) (py "Q2") = None
  /\ dict_find (_parse_quiz_questions (VStr three_questions)) (py "Q3") = None.
Proof. repeat split; vm_compute; reflexivity. Qed.

Lemma quiz_line_idle (raw : pystr) :
  opens_first raw = false -> quiz_line quiz_start raw = quiz_start.
Proof.
  unfold opens_first, quiz_line; cbn [question_number current_question quiz_start].
  change (str_of_N 1 ++ py ".") with (py "1.").
  change (str_of_N 1 ++ py " ") with (py "1 ").
  intros ->. reflexivity.
Qed.

Lemma quiz_lines_idle (ls : list pystr) :
  forallb (fun raw => negb (opens_first raw)) ls = true ->
  fold_left quiz_line ls quiz_start = quiz_start.
Proof.
  induction ls as [|l ls IH]; simpl; [reflexivity|].
  intros H; apply andb_true_iff in H as [Hl Hls].
  apply negb_true_iff in Hl. rewrite (quiz_line_idle _ Hl). auto.
Qed.

(** The part of C2 that holds: a text none of whose lines opens question 1
    (in particular a text with no numbered line) gives the empty
    dictionary, and so does anything that is not a string. *)
Lemma parse_without_first_question (s : pystr) :
  forallb (fun raw => negb (opens_first raw)) (split_on 10%N s) = true ->
  _parse_quiz_questions (VStr s) = [].
Proof.
  intros H. unfold _parse_quiz_questions.
  rewrite (quiz_lines_idle _ H). reflexivity.
Qed.

Open Scope Z_scope.

(** * Further properties of the router *)

Lemma existsb_pystr (a : pystr) (l : list pystr) :
  existsb (pystr_eqb a) l = true <-> In a l.
Proof.
  rewrite existsb_exists. split.
  - intros (x & Hx & E). apply pystr_eqb_eq in E. subst; assumption.
  - intros H. exists a. split; [assumption | apply pystr_eqb_refl].
Qed.

(** X1.  An action that, lower-cased, is none of process_pdf, qa, summarize,
    quiz and feedback is answered with status 400 and a message that names
    the lower-cased action and lists the supported ones; nothing outside is
    called.  A request without action is such a request. *)
Theorem unknown_action_rejected (U : Unicode) (svc : Services)
    (event body : pydict) (action : pystr) :
  _parse_request_body svc event [] = (Ok (VDict body), []) ->
  dict_get body (py "action") (VStr []) = VStr action ->
  lower U action <> py "process_pdf" ->
  ~ In (lower U action) ai_actions ->
  run (process_request U svc event)
  = (Ok (build_error_response
           (py "Invalid action: " ++ lower U action
            ++ py ". Supported actions: process_pdf, qa, summarize, quiz, feedback")
           400), []).
Proof.
  intros Hparse Hact Hpdf Hai.
  unfold run, process_request, try_except, route.
  unfold bind at 1. rewrite Hparse.
  unfold bind, lift; cbn [as_dict]. rewrite Hact; cbn [str_lower].
  rewrite (pystr_eqb_neq Hpdf).
  destruct (existsb (pystr_eqb (lower U action)) ai_actions) eqn:E;
    [apply existsb_pystr in E; contradiction | reflexivity].
Qed.

Lemma unknown_action_rejected_witness :
  run (process_request ascii_only (stub_services (py "unused"))
         [ (py "text", VStr photosynthesis) ])
  = (Ok (build_error_response
           (py "Invalid action: . Supported actions: process_pdf, qa, summarize, quiz, feedback")
           400), []).
Proof.
  apply (@unknown_action_rejected ascii_only (stub_services (py "unused"))
           [ (py "text", VStr photosynthesis) ] [ (py "text", VStr photosynthesis) ] []);
    try reflexivity.
  - intros H; vm_compute in H; discriminate H.
  - intros H; vm_compute in H; intuition discriminate.
Defined.

(** X2.  A body that [json.loads] cannot read is answered with status 500
    and the text of the exception; nothing outside is called. *)
Theorem unreadable_body_answered (U : Unicode) (svc : Services)
    (event : pydict) (b : pyval) (e : pystr) :
  dict_find event (py "body") = Some b ->
  json_loads svc b = Raise e ->
  run (process_request U svc event)
  = (Ok (build_error_response (py "Internal server error: " ++ e) 500), []).
Proof.
  intros Hb He.
  unfold run, process_request, try_except, route, bind at 1, _parse_request_body.
  rewrite Hb. unfold lift. rewrite He. reflexivity.
Qed.

Lemma unreadable_body_answered_witness :
  run (process_request ascii_only (stub_services (py "unused"))
         [ (py "body", VStr (py "not json")) ])
  = (Ok (build_error_response (py "Internal server error: Expecting value") 500), []).
Proof.
  apply (@unreadable_body_answered ascii_only (stub_services (py "unused"))
           [ (py "body", VStr (py "not json")) ] (VStr (py "not json")) (py "Expecting value"));
    reflexivity.
Defined.

(** X3.  A body that is read but is no JSON object (a list, a string, a
    number, null) has no [get]: the request is answered with status 500 and
    the text of the AttributeError. *)
Theorem non_object_body_answered (U : Unicode) (svc : Services)
    (event : pydict) (parsed : pyval) :
  _parse_request_body svc event [] = (Ok parsed, []) ->
  is_dict parsed = false ->
  run (process_request U svc event)
  = (Ok (build_error_response
           (py "Internal server error: '" ++ type_name parsed
            ++ py "' object has no attribute 'get'") 500), []).
Proof.
  intros Hparse Hd.
  unfold run, process_request, try_except, route, bind at 1. rewrite Hparse.
  destruct parsed; try discriminate Hd; reflexivity.
Qed.

Lemma non_object_body_answered_witness :
  run (process_request ascii_only list_body_services [ (py "body", VStr (py "[1]")) ])
  = (Ok (build_error_response
           (py "Internal server error: 'list' object has no attribute 'get'") 500), []).
Proof.
  apply (@non_object_body_answered ascii_only list_body_services
           [ (py "body", VStr (py "[1]")) ] (VList [VInt 1]));
    reflexivity.
Defined.

(** X4.  An action that is not a string (null, a number, a list, ...) has no
    [lower]: the request is answered with status 500 and the text of the
    AttributeError, whatever else it holds. *)
Theorem non_string_action_answered (U : Unicode) (svc : Services)
    (event body : pydict) (v : pyval) :
  _parse_request_body svc event [] = (Ok (VDict body), []) ->
  dict_get body (py "action") (VStr []) = v ->
  is_str v = false ->
  run (process_request U svc event)
  = (Ok (build_error_response
           (py "Internal server error: '" ++ type_name v
            ++ py "' object has no attribute 'lower'") 500), []).
Proof.
  intros Hparse Hact Hs.
  unfold run, process_request, try_except, route, bind at 1. rewrite Hparse.
  unfold bind, lift; cbn [as_dict]. rewrite Hact.
  destruct v; try discriminate Hs; reflexivity.
Qed.

Lemma non_string_action_answered_witness :
  run (process_request ascii_only (stub_services (py "unused"))
         [ (py "action", VNone); (py "text", VStr photosynthesis) ])
  = (Ok (build_error_response
           (py "Internal server error: 'NoneType' object has no attribute 'lower'")
           500), []).
Proof.
  apply (@non_string_action_answered ascii_only (stub_services (py "unused"))
           [ (py "action", VNone); (py "text", VStr photosynthesis) ]
           [ (py "action", VNone); (py "text", VStr photosynthesis) ] VNone);
    reflexivity.
Defined.

(** X5.  For an AI action a text that is not a string (a number, null, a
    list, an object) is not rejected as missing: slicing it or stripping the
    slice raises, and the request is answered with status 500 without a call
    of the model. *)
Theorem non_string_text_answered (U : Unicode) (svc : Services)
    (event body : pydict) (action : pystr) (v : pyval) :
  _parse_request_body svc event [] = (Ok (VDict body), []) ->
  dict_get body (py "action") (VStr []) = VStr action ->
  In (lower U action) ai_actions ->
  dict_get body (py "text") (VStr []) = v ->
  is_str v = false ->
  exists e,
    run (process_request U svc event)
    = (Ok (build_error_response (py "Internal server error: " ++ e) 500), []).
Proof.
  intros Hparse Hact Hin Ht Hs.
  unfold run, process_request, try_except.
  rewrite (route_ai U svc event Hparse Hact Hin).
  unfold _handle_ai_actions, bind, lift. rewrite Ht.
  destruct v; try discriminate Hs; eexists; reflexivity.
Qed.

Lemma non_string_text_answered_witness :
  exists e,
    run (process_request ascii_only (stub_services (py "unused"))
           [ (py "action", VStr (py "summarize")); (py "text", VInt 42) ])
    = (Ok (build_error_response (py "Internal server error: " ++ e) 500), []).
Proof.
  apply (@non_string_text_answered ascii_only (stub_services (py "unused"))
           [ (py "action", VStr (py "summarize")); (py "text", VInt 42) ]
           [ (py "action", VStr (py "summarize")); (py "text", VInt 42) ]
           (py "summarize") (VInt 42));
    try reflexivity.
  simpl; auto.
Defined.

(** ** The model *)

Section ModelCalls.
Variables (U : Unicode) (svc : Services).
Variables (event body : pydict) (action t : pystr).
Hypothesis Hparse : _parse_request_body svc event [] = (Ok (VDict body), []).
Hypothesis Hact : dict_get body (py "action") (VStr []) = VStr action.
Hypothesis Hin : In (lower U action) model_actions.
Hypothesis Htext : dict_get body (py "text") (VStr []) = VStr t.
Hypothesis Hdoc : nonempty (strip (firstn 5000 t)) = true.
Hypothesis Hq :
  lower U action = py "qa" ->
  truthy (dict_get body (py "input") (VStr [])) = true.

Let rq : model_request :=
  ai_request svc (lower U action) (VStr (firstn 5000 t))
    (dict_get body (py "input") (VStr [])).

(** What a well-formed request for [qa], [summarize] or [quiz] comes to:
    one call of the model, whose outcome decides the response. *)
Lemma model_action_outcome :
  run (process_request U svc event)
  = (Ok match result_bind (invoke_model svc rq) completion_text with
        | Ok reply => build_success_response reply (lower U action)
        | Raise e =>
            build_error_response
              (py "Internal server error: AI model invocation failed: " ++ e) 500
        end,
     [CallModel rq]).
Proof.
  assert (Hai : In (lower U action) ai_actions).
  { destruct Hin as [H|[H|[H|[]]]]; rewrite <- H; simpl; auto. }
  unfold run, process_request, try_except.
  rewrite (route_ai U svc event Hparse Hact Hai).
  subst rq. destruct Hin as [H|[H|[H|[]]]]; rewrite <- H in *.
  - rewrite (handle_ai_qa svc body [] Htext Hdoc (Hq eq_refl)).
    unfold bind at 1, handle_question_answer, _invoke_model, try_except, bind,
      record_call, lift, raise, ret.
    change (ai_request svc (py "qa") ?d ?q)
      with (bedrock_request (user_message (qa_prompt svc d q)) 300).
    cbn [app]. destruct (invoke_model svc _) as [b|e]; cbn [result_bind];
      [destruct (completion_text b)|]; reflexivity.
  - rewrite (handle_ai_summarize svc body [] Htext Hdoc).
    unfold bind at 1, generate_summary, _invoke_model, try_except, bind,
      record_call, lift, raise, ret.
    change (ai_request svc (py "summarize") ?d ?q)
      with (bedrock_request (user_message (summary_prompt svc d)) 400).
    cbn [app]. destruct (invoke_model svc _) as [b|e]; cbn [result_bind];
      [destruct (completion_text b)|]; reflexivity.
  - rewrite (handle_ai_quiz svc body [] Htext Hdoc).
    unfold bind at 1, generate_quiz, _invoke_model, try_except, bind,
      record_call, lift, raise, ret.
    change (ai_request svc (py "quiz") ?d ?q)
      with (bedrock_request (user_message (quiz_prompt svc d)) 600).
    cbn [app]. destruct (invoke_model svc _) as [b|e]; cbn [result_bind];
      [destruct (completion_text b)|]; reflexivity.
Qed.

End ModelCalls.

(** X6.  When the model service fails, a well-formed [qa], [summarize] or
    [quiz] request is answered with status 500 and the text "AI model
    invocation failed: " followed by that of the failure, after the one
    call; there is no second attempt. *)
Theorem model_failure_answered (U : Unicode) (svc : Services)
    (event body : pydict) (action t e : pystr) :
  _parse_request_body svc event [] = (Ok (VDict body), []) ->
  dict_get body (py "action") (VStr []) = VStr action ->
  In (lower U action) model_actions ->
  dict_get body (py "text") (VStr []) = VStr t ->
  nonempty (strip (firstn 5000 t)) = true ->
  (lower U action = py "qa" ->
   truthy (dict_get body (py "input") (VStr [])) = true) ->
  let rq := ai_request svc (lower U action) (VStr (firstn 5000 t))
              (dict_get body (py "input") (VStr [])) in
  invoke_model svc rq = Raise e ->
  run (process_request U svc event)
  = (Ok (build_error_response
           (py "Internal server error: AI model invocation failed: " ++ e) 500),
     [CallModel rq]).
Proof.
  intros Hparse Hact Hin Ht Hdoc Hq rq He.
  rewrite (model_action_outcome U svc event Hparse Hact Hin Ht Hdoc Hq).
  fold rq. rewrite He. reflexivity.
Qed.

Lemma model_failure_answered_witness :
  fst (run (process_request ascii_only (failing_model (py "Read timeout"))
              summarize_request))
  = Ok (build_error_response
          (py "Internal server error: AI model invocation failed: Read timeout") 500).
Proof.
  refine (f_equal fst
            (@model_failure_answered ascii_only (failing_model (py "Read timeout"))
               summarize_request summarize_request (py "summarize") photosynthesis
               (py "Read timeout") _ _ _ _ _ _ _));
    try reflexivity.
  - simpl; auto.
  - intros H; vm_compute in H; discriminate H.
Defined.

(** X7.  An answer of the model service without the key [choices] is
    treated like a failed call: status 500 with the text of the KeyError. *)
Theorem answer_without_choices (U : Unicode) (svc : Services)
    (event body : pydict) (action t : pystr) (answer : pydict) :
  _parse_request_body svc event [] = (Ok (VDict body), []) ->
  dict_get body (py "action") (VStr []) = VStr action ->
  In (lower U action) model_actions ->
  dict_get body (py "text") (VStr []) = VStr t ->
  nonempty (strip (firstn 5000 t)) = true ->
  (lower U action = py "qa" ->
   truthy (dict_get body (py "input") (VStr [])) = true) ->
  let rq := ai_request svc (lower U action) (VStr (firstn 5000 t))
              (dict_get body (py "input") (VStr [])) in
  invoke_model svc rq = Ok (VDict answer) ->
  dict_find answer (py "choices") = None ->
  run (process_request U svc event)
  = (Ok (build_error_response
           (py "Internal server error: AI model invocation failed: 'choices'") 500),
     [CallModel rq]).
Proof.
  intros Hparse Hact Hin Ht Hdoc Hq rq Ha Hc.
  rewrite (model_action_outcome U svc event Hparse Hact Hin Ht Hdoc Hq).
  fold rq. rewrite Ha. cbn [result_bind]. unfold completion_text.
  cbn [subscript_key]. rewrite Hc. reflexivity.
Qed.

Lemma answer_without_choices_witness :
  fst (run (process_request ascii_only throttled_model summarize_request))
  = Ok (build_error_response
          (py "Internal server error: AI model invocation failed: 'choices'") 500).
Proof.
  refine (f_equal fst
            (@answer_without_choices ascii_only throttled_model
               summarize_request summarize_request (py "summarize") photosynthesis
               [ (py "message", VStr (py "throttled")) ] _ _ _ _ _ _ _ _));
    try reflexivity.
  - simpl; auto.
  - intros H; vm_compute in H; discriminate H.
Defined.

(** X8.  When the model answers, a well-formed [qa], [summarize] or [quiz]
    request gets status 200 with the generated text exactly as the model
    gave it (the router does not clean it) and with the action in lower
    case, after exactly one call of the model. *)
Theorem model_reply_returned (U : Unicode) (svc : Services)
    (event body : pydict) (action t : pystr) (answer reply : pyval) :
  _parse_request_body svc event [] = (Ok (VDict body), []) ->
  dict_get body (py "action") (VStr []) = VStr action ->
  In (lower U action) model_actions ->
  dict_get body (py "text") (VStr []) = VStr t ->
  nonempty (strip (firstn 5000 t)) = true ->
  (lower U action = py "qa" ->
   truthy (dict_get body (py "input") (VStr [])) = true) ->
  let rq := ai_request svc (lower U action) (VStr (firstn 5000 t))
              (dict_get body (py "input") (VStr [])) in
  invoke_model svc rq = Ok answer ->
  completion_text answer = Ok reply ->
  run (process_request U svc event)
  = (Ok (build_success_response reply (lower U action)), [CallModel rq]).
Proof.
  intros Hparse Hact Hin Ht Hdoc Hq rq Ha Hc.
  rewrite (model_action_outcome U svc event Hparse Hact Hin Ht Hdoc Hq).
  fold rq. rewrite Ha. cbn [result_bind]. rewrite Hc. reflexivity.
Qed.

Lemma model_reply_returned_witness :
  fst (run (process_request ascii_only (stub_services (py "  <b>raw</b> "))
              [ (py "action", VStr (py "QA")); (py "text", VStr photosynthesis);
                (py "input", VStr (py "What is converted?")) ]))
  = Ok (build_success_response (VStr (py "  <b>raw</b> ")) (py "qa")).
Proof.
  refine (f_equal fst
            (@model_reply_returned ascii_only (stub_services (py "  <b>raw</b> "))
               _ [ (py "action", VStr (py "QA")); (py "text", VStr photosynthesis);
                   (py "input", VStr (py "What is converted?")) ]
               (py "QA") photosynthesis
               (completion (VStr (py "  <b>raw</b> "))) (VStr (py "  <b>raw</b> "))
               _ _ _ _ _ _ _ _));
    try reflexivity.
  simpl; auto.
Defined.

(** ** Documents *)

Lemma has_nonspace_lstrip (s : pystr) : has_nonspace (lstrip s) = has_nonspace s.
Proof.
  induction s as [|c s IH]; [reflexivity|]. cbn [lstrip].
  destruct (isspace c) eqn:E; [|reflexivity].
  cbn [has_nonspace existsb]. rewrite E. exact IH.
Qed.

Lemma has_nonspace_rev (s : pystr) : has_nonspace (rev s) = has_nonspace s.
Proof.
  unfold has_nonspace. apply eq_iff_eq_true. rewrite !existsb_exists.
  split; intros (x & Hx & E); exists x; split; auto;
    [apply in_rev | apply in_rev; rewrite rev_involutive]; assumption.
Qed.

Lemma has_nonspace_nonempty (s : pystr) : has_nonspace s = true -> nonempty s = true.
Proof. destruct s; [discriminate | reflexivity]. Qed.

Lemma nonempty_rev (s : pystr) : nonempty (rev s) = nonempty s.
Proof.
  destruct s as [|c s]; [reflexivity|]. cbn [rev nonempty].
  destruct (rev s); reflexivity.
Qed.

(** A text is blank exactly when stripping leaves nothing. *)
Lemma strip_nonempty (s : pystr) : nonempty (strip s) = has_nonspace s.
Proof.
  destruct (has_nonspace s) eqn:E.
  - unfold strip, rstrip. rewrite nonempty_rev. apply has_nonspace_nonempty.
    rewrite has_nonspace_lstrip, has_nonspace_rev, has_nonspace_lstrip. exact E.
  - assert (Hb : forallb isspace s = true).
    { apply forallb_forall. intros x Hx.
      destruct (isspace x) eqn:Ex; [reflexivity|].
      assert (has_nonspace s = true)
        by (apply existsb_exists; exists x; rewrite Ex; auto).
      congruence. }
    rewrite (strip_blank _ Hb). reflexivity.
Qed.

Section Pages.
Variable svc : Services.

Lemma pages_text_empty (n : N) (pages : list pyval) (acc : pystr) :
  existsb truthy pages = false -> pages_text svc n pages acc = acc.
Proof.
  revert n acc; induction pages as [|p pages IH]; intros n acc H; [reflexivity|].
  cbn [existsb] in H. apply orb_false_iff in H as [Hp Hr].
  cbn [pages_text]. rewrite Hp. apply IH, Hr.
Qed.

Lemma pages_text_keeps (n : N) (pages : list pyval) (acc : pystr) :
  has_nonspace acc = true -> has_nonspace (pages_text svc n pages acc) = true.
Proof.
  revert n acc; induction pages as [|p pages IH]; intros n acc H; [exact H|].
  cbn [pages_text]. apply IH. destruct (truthy p); [|exact H].
  unfold has_nonspace. rewrite existsb_app. fold (has_nonspace acc).
  rewrite H. reflexivity.
Qed.

(** A page with text leaves its heading in the result. *)
Lemma pages_text_nonspace (n : N) (pages : list pyval) (acc : pystr) :
  existsb truthy pages = true -> has_nonspace (pages_text svc n pages acc) = true.
Proof.
  revert n acc; induction pages as [|p pages IH]; intros n acc H; [discriminate H|].
  cbn [pages_text]. destruct (truthy p) eqn:Hp.
  - apply pages_text_keeps. unfold has_nonspace. rewrite !existsb_app.
    change (existsb (fun c => negb (isspace c)) (py "Page ")) with true.
    rewrite orb_true_r. reflexivity.
  - cbn [existsb] in H. rewrite Hp in H. apply IH, H.
Qed.

End Pages.

Lemma route_pdf (U : Unicode) (svc : Services) (event body : pydict) (action : pystr) :
  _parse_request_body svc event [] = (Ok (VDict body), []) ->
  dict_get body (py "action") (VStr []) = VStr action ->
  lower U action = py "process_pdf" ->
  route U svc event [] = _handle_pdf_processing svc body [].
Proof.
  intros Hparse Hact Ha.
  unfold route, bind at 1. rewrite Hparse.
  unfold lift at 1, bind at 1; cbn [as_dict].
  unfold bind at 1, lift at 1. rewrite Hact; cbn [str_lower]. rewrite Ha.
  reflexivity.
Qed.

(** X9.  A process_pdf request without PDF data (missing, empty or null) is
    answered with status 400 "No PDF data provided" and the extraction is
    not called. *)
Theorem pdf_data_required (U : Unicode) (svc : Services)
    (event body : pydict) (action : pystr) :
  _parse_request_body svc event [] = (Ok (VDict body), []) ->
  dict_get body (py "action") (VStr []) = VStr action ->
  lower U action = py "process_pdf" ->
  truthy (dict_get body (py "pdf_data") (VStr [])) = false ->
  run (process_request U svc event)
  = (Ok (build_error_response (py "No PDF data provided") 400), []).
Proof.
  intros Hparse Hact Ha Hd.
  unfold run, process_request, try_except.
  rewrite (route_pdf U svc event Hparse Hact Ha).
  unfold _handle_pdf_processing. rewrite Hd. reflexivity.
Qed.

Lemma pdf_data_required_witness :
  run (process_request ascii_only (stub_services (py "unused"))
         [ (py "action", VStr (py "process_pdf")); (py "pdf_data", VNone) ])
  = (Ok (build_error_response (py "No PDF data provided") 400), []).
Proof.
  apply (@pdf_data_required ascii_only (stub_services (py "unused"))
           _ [ (py "action", VStr (py "process_pdf")); (py "pdf_data", VNone) ]
           (py "process_pdf"));
    reflexivity.
Defined.

Section PdfRequest.
Variables (U : Unicode) (svc : Services).
Variables (event body : pydict) (action : pystr) (data : pyval).
Hypothesis Hparse : _parse_request_body svc event [] = (Ok (VDict body), []).
Hypothesis Hact : dict_get body (py "action") (VStr []) = VStr action.
Hypothesis Ha : lower U action = py "process_pdf".
Hypothesis Hdata : dict_get body (py "pdf_data") (VStr []) = data.
Hypothesis Htruthy : truthy data = true.

(** What a process_pdf request with data comes to. *)
Lemma pdf_outcome :
  run (process_request U svc event)
  = (Ok match pdf_page_texts svc data with
        | Ok pages =>
            if has_nonspace (pages_text svc 0 pages [])
            then build_success_response
                   (VStr (strip (pages_text svc 0 pages []))) (py "process_pdf")
            else build_error_response
                   (py "Internal server error: PDF processing failed: No extractable text found in PDF")
                   500
        | Raise e =>
            build_error_response
              (py "Internal server error: PDF processing failed: " ++ e) 500
        end,
     [CallPdf data]).
Proof.
  unfold run, process_request, try_except.
  rewrite (route_pdf U svc event Hparse Hact Ha).
  unfold _handle_pdf_processing. rewrite Hdata, Htruthy. cbn [negb].
  unfold bind at 1, extract_text_from_pdf, try_except. rewrite Htruthy. cbn [negb].
  unfold bind, record_call, lift, raise, ret. cbn [app].
  destruct (pdf_page_texts svc data) as [pages|e]; [|reflexivity].
  rewrite strip_nonempty.
  destruct (has_nonspace (pages_text svc 0 pages [])); reflexivity.
Qed.

End PdfRequest.

(** X10.  When the reader finds text on at least one page, a process_pdf
    request is answered with status 200 and action process_pdf; the text is
    that of the pages with text, each under the heading "Page n:" with its
    number in the document, stripped of whitespace at both ends, and it is
    not empty.  The model is not called. *)
Theorem pdf_text_returned (U : Unicode) (svc : Services)
    (event body : pydict) (action : pystr) (data : pyval) (pages : list pyval) :
  _parse_request_body svc event [] = (Ok (VDict body), []) ->
  dict_get body (py "action") (VStr []) = VStr action ->
  lower U action = py "process_pdf" ->
  dict_get body (py "pdf_data") (VStr []) = data ->
  truthy data = true ->
  pdf_page_texts svc data = Ok pages ->
  existsb truthy pages = true ->
  run (process_request U svc event)
  = (Ok (build_success_response
           (VStr (strip (pages_text svc 0 pages []))) (py "process_pdf")),
     [CallPdf data])
  /\ nonempty (strip (pages_text svc 0 pages [])) = true.
Proof.
  intros Hparse Hact Ha Hd Ht Hp He.
  rewrite (pdf_outcome U svc event Hparse Hact Ha Hd Ht), Hp.
  rewrite strip_nonempty, (pages_text_nonspace svc 0 pages [] He).
  split; reflexivity.
Qed.

Lemma pdf_text_returned_witness :
  fst (run (process_request ascii_only
              (pdf_with_pages [VStr (py "Cells"); VStr []; VStr (py "divide. ")])
              pdf_request))
  = Ok (build_success_response
          (VStr (join_lines [ py "Page 1:"; py "Cells"; []; py "Page 3:"; py "divide." ]))
          (py "process_pdf")).
Proof.
  refine (eq_trans
            (f_equal fst
               (proj1 (@pdf_text_returned ascii_only
                         (pdf_with_pages [VStr (py "Cells"); VStr []; VStr (py "divide. ")])
                         pdf_request pdf_request (py "process_pdf")
                         (VStr (py "JVBERi0="))
                         [VStr (py "Cells"); VStr []; VStr (py "divide. ")]
                         _ _ _ _ _ _ _))) _);
    reflexivity.
Defined.

(** X11.  When no page has text (or the document has no page), a
    process_pdf request is answered with status 500 and the message "PDF
    processing failed: No extractable text found in PDF". *)
Theorem pdf_without_text (U : Unicode) (svc : Services)
    (event body : pydict) (action : pystr) (data : pyval) (pages : list pyval) :
  _parse_request_body svc event [] = (Ok (VDict body), []) ->
  dict_get body (py "action") (VStr []) = VStr action ->
  lower U action = py "process_pdf" ->
  dict_get body (py "pdf_data") (VStr []) = data ->
  truthy data = true ->
  pdf_page_texts svc data = Ok pages ->
  existsb truthy pages = false ->
  run (process_request U svc event)
  = (Ok (build_error_response
           (py "Internal server error: PDF processing failed: No extractable text found in PDF")
           500),
     [CallPdf data]).
Proof.
  intros Hparse Hact Ha Hd Ht Hp He.
  rewrite (pdf_outcome U svc event Hparse Hact Ha Hd Ht), Hp.
  rewrite (pages_text_empty svc 0 pages [] He). reflexivity.
Qed.

Lemma pdf_without_text_witness :
  fst (run (process_request ascii_only (pdf_with_pages [VStr []; VNone]) pdf_request))
  = Ok (build_error_response
          (py "Internal server error: PDF processing failed: No extractable text found in PDF")
          500).
Proof.
  refine (f_equal fst
            (@pdf_without_text ascii_only (pdf_with_pages [VStr []; VNone])
               pdf_request pdf_request (py "process_pdf") (VStr (py "JVBERi0="))
               [VStr []; VNone] _ _ _ _ _ _ _));
    reflexivity.
Defined.

(** X12.  When decoding or reading the document fails, a process_pdf request
    is answered with status 500 and the message "PDF processing failed: "
    followed by the text of the failure. *)
Theorem pdf_failure_answered (U : Unicode) (svc : Services)
    (event body : pydict) (action : pystr) (data : pyval) (e : pystr) :
  _parse_request_body svc event [] = (Ok (VDict body), []) ->
  dict_get body (py "action") (VStr []) = VStr action ->
  lower U action = py "process_pdf" ->
  dict_get body (py "pdf_data") (VStr []) = data ->
  truthy data = true ->
  pdf_page_texts svc data = Raise e ->
  run (process_request U svc event)
  = (Ok (build_error_response
           (py "Internal server error: PDF processing failed: " ++ e) 500),
     [CallPdf data]).
Proof.
  intros Hparse Hact Ha Hd Ht Hp.
  rewrite (pdf_outcome U svc event Hparse Hact Ha Hd Ht), Hp. reflexivity.
Qed.

Lemma pdf_failure_answered_witness :
  fst (run (process_request ascii_only (stub_services (py "unused")) pdf_request))
  = Ok (build_error_response
          (py "Internal server error: PDF processing failed: EOF marker not found")
          500).
Proof.
  refine (f_equal fst
            (@pdf_failure_answered ascii_only (stub_services (py "unused"))
               pdf_request pdf_request (py "process_pdf") (VStr (py "JVBERi0="))
               (py "EOF marker not found") _ _ _ _ _ _));
    reflexivity.
Defined.

(** ** The whole router *)

Lemma process_request_ok (U : Unicode) (svc : Services) (event : pydict)
    (log : list ext_call) :
  exists r l, process_request U svc event log = (Ok r, l).
Proof.
  unfold process_request, try_except, ret.
  destruct (route U svc event log) as [[r|e] l]; do 2 eexists; reflexivity.
Qed.

(** X13.  The handler of [lambda_handler] for unexpected errors is never
    used: [process_request] answers every event itself, and the entry point
    returns its response as it is. *)
Theorem lambda_handler_is_process_request (U : Unicode) (svc : Services)
    (event : pydict) :
  run (lambda_handler U svc event) = run (process_request U svc event)
  /\ exists r log, run (lambda_handler U svc event) = (Ok r, log).
Proof.
  unfold run, lambda_handler, try_except.
  destruct (process_request_ok U svc event []) as (r & l & E). rewrite E.
  split; [reflexivity | do 2 eexists; reflexivity].
Qed.

Lemma adds_ret {A} (a : A) : adds_at_most_one (ret a).
Proof. intros log; left; reflexivity. Qed.

Lemma adds_raise {A} (e : pystr) : adds_at_most_one (@raise A e).
Proof. intros log; left; reflexivity. Qed.

Lemma adds_bind_ret {A B} (m : M A) (f : A -> B) :
  adds_at_most_one m -> adds_at_most_one (bind m (fun x => ret (f x))).
Proof. intros H log. rewrite bind_ret_log. apply H. Qed.

Lemma adds_invoke (svc : Services) (msgs : list message) (tok : Z) :
  adds_at_most_one (_invoke_model svc msgs tok).
Proof. intros log; right; eexists; apply invoke_model_log. Qed.

Lemma adds_extract (svc : Services) (data : pyval) :
  adds_at_most_one (extract_text_from_pdf svc data).
Proof.
  intros log. unfold extract_text_from_pdf, try_except.
  destruct (negb (truthy data)); [left; reflexivity|].
  unfold bind, record_call, lift, raise, ret.
  destruct (pdf_page_texts svc data) as [pages|e]; [|right; eexists; reflexivity].
  destruct (negb (nonempty (strip (pages_text svc 0 pages []))));
    right; eexists; reflexivity.
Qed.

Lemma adds_handle_pdf (svc : Services) (body : pydict) :
  adds_at_most_one (_handle_pdf_processing svc body).
Proof.
  unfold _handle_pdf_processing.
  destruct (negb (truthy (dict_get body (py "pdf_data") (VStr []))));
    [apply adds_ret | apply adds_bind_ret, adds_extract].
Qed.

Lemma adds_bind_lift {A B} (r : result A) (k : A -> M B) :
  (forall a, adds_at_most_one (k a)) -> adds_at_most_one (bind (lift r) k).
Proof.
  intros H log. unfold bind, lift. destruct r as [a|e]; [apply H | left; reflexivity].
Qed.

Lemma adds_handle_ai (svc : Services) (action : pystr) (body : pydict) :
  adds_at_most_one (_handle_ai_actions svc action body).
Proof.
  unfold _handle_ai_actions.
  apply adds_bind_lift; intros text. apply adds_bind_lift; intros stripped.
  cbv zeta.
  repeat match goal with
         | |- adds_at_most_one (if ?b then _ else _) => destruct b
         end;
    try apply adds_ret; try apply adds_raise;
    try (apply adds_bind_ret, adds_invoke).
Qed.

Lemma adds_route (U : Unicode) (svc : Services) (event : pydict) :
  adds_at_most_one (route U svc event).
Proof.
  unfold route, _parse_request_body.
  destruct (dict_find event (py "body")) as [b|];
    [|change (@ret pyval (VDict event)) with (lift (Ok (VDict event)))];
    (apply adds_bind_lift; intros parsed;
     apply adds_bind_lift; intros body;
     apply adds_bind_lift; intros action;
     destruct (pystr_eqb action (py "process_pdf")); [apply adds_handle_pdf|];
     destruct (existsb (pystr_eqb action) ai_actions);
       [apply adds_handle_ai | apply adds_ret]).
Qed.

(** X14.  Whatever the request, the router makes at most one call outside
    the program (the model or the PDF reader): no retry, no second
    service. *)
Theorem at_most_one_external_call (U : Unicode) (svc : Services) (event : pydict) :
  (List.length (snd (run (process_request U svc event))) <= 1)%nat.
Proof.
  unfold run, process_request. rewrite try_ret_log.
  destruct (adds_route U svc event []) as [E|[c E]]; rewrite E; cbn; lia.
Qed.

(** * Further properties of the client *)

(** X15.  What the client reads out of a response of the Lambda function
    that arrives as the JSON of an HTTP 200 answer: the result of a success
    response, as it is; for an error response the text "No response found",
    whatever the error message was. *)
Theorem client_reads_response (data : pyval) (action message : pystr) (code : Z) :
  _extract_response_data (response_json (build_success_response data action))
  = Ok data
  /\ _extract_response_data (response_json (build_error_response message code))
     = Ok (VStr (py "No response found")).
Proof. split; reflexivity. Qed.

(** X16.  The request the page sends to check an answer,
    [call_backend("feedback", "", ...)], has an empty text: whatever its
    input, the router answers it with status 400 "No text content provided"
    without calling the model, and the page shows "No response found". *)
Theorem page_feedback_request_rejected (U : Unicode) (svc : Services)
    (user_input : pyval) :
  run (process_request U svc
         [ (py "action", VStr (py "feedback")); (py "text", VStr []);
           (py "input", user_input) ])
  = (Ok (build_error_response (py "No text content provided") 400), [])
  /\ call_backend U (lambda_endpoint U svc)
       (VStr (py "feedback")) (VStr []) user_input
     = VStr (py "No response found").
Proof. split; reflexivity. Qed.

Lemma strip_strip (s : pystr) : strip (strip s) = strip s.
Proof.
  unfold strip.
  rewrite (@lstrip_fixed (rstrip (lstrip s)))
    by apply head_clean_rstrip, head_clean_lstrip.
  apply rstrip_fixed. unfold rstrip. rewrite rev_involutive.
  apply head_clean_lstrip.
Qed.

(** X17.  What the extractors of the page return, when they return a text,
    is not empty and has no whitespace at either end; a decoded file that is
    blank gives [None], like a file that cannot be read. *)
Theorem extracted_text_shape (svc : Services) (read : result (list pyval))
    (decoded : result pystr) :
  (forall t, FileProcessor.extract_text_from_pdf svc read = Some t ->
             nonempty t = true /\ strip t = t)
  /\ (forall t, FileProcessor.extract_text_from_txt decoded = Some t ->
                nonempty t = true /\ strip t = t)
  /\ (forall c, decoded = Ok c -> has_nonspace c = false ->
                FileProcessor.extract_text_from_txt decoded = None)
  /\ (forall c, decoded = Ok c -> has_nonspace c = true ->
                FileProcessor.extract_text_from_txt decoded = Some (strip c)).
Proof.
  repeat split.
  - unfold FileProcessor.extract_text_from_pdf in H. destruct read; [|discriminate H].
    cbv zeta in H.
    destruct (nonempty (strip (pages_text svc 0 a []))) eqn:E; [|discriminate H].
    inversion H; subst; exact E.
  - unfold FileProcessor.extract_text_from_pdf in H. destruct read; [|discriminate H].
    cbv zeta in H.
    destruct (nonempty (strip (pages_text svc 0 a []))); [|discriminate H].
    inversion H; subst; apply strip_strip.
  - unfold FileProcessor.extract_text_from_txt in H. destruct decoded; [|discriminate H].
    destruct (nonempty (strip a)) eqn:E; [|discriminate H].
    inversion H; subst; exact E.
  - unfold FileProcessor.extract_text_from_txt in H. destruct decoded; [|discriminate H].
    destruct (nonempty (strip a)); [|discriminate H].
    inversion H; subst; apply strip_strip.
  - intros c -> Hc. unfold FileProcessor.extract_text_from_txt.
    rewrite strip_nonempty, Hc. reflexivity.
  - intros c -> Hc. unfold FileProcessor.extract_text_from_txt.
    rewrite strip_nonempty, Hc. reflexivity.
Qed.

(** X18.  The extraction of the page and that of the backend agree on the
    same reading of a document: where the page gets a text the backend
    returns the same text, and where the page gets [None] the backend
    raises. *)
Theorem extraction_agrees (svc : Services) (data : pyval) (log : list ext_call) :
  truthy data = true ->
  match FileProcessor.extract_text_from_pdf svc (pdf_page_texts svc data) with
  | Some t => fst (extract_text_from_pdf svc data log) = Ok t
  | None => exists e, fst (extract_text_from_pdf svc data log) = Raise e
  end.
Proof.
  intros Ht.
  unfold FileProcessor.extract_text_from_pdf, extract_text_from_pdf, try_except.
  rewrite Ht. cbn [negb]. unfold bind, record_call, lift, raise, ret.
  destruct (pdf_page_texts svc data) as [pages|e]; [|eexists; reflexivity].
  cbv zeta. destruct (nonempty (strip (pages_text svc 0 pages []))); cbn [negb];
    [reflexivity | eexists; reflexivity].
Qed.

Lemma extraction_agrees_witness :
  fst (extract_text_from_pdf (pdf_with_pages [VStr (py " Cells ")])
         (VStr (py "JVBERi0=")) [])
  = Ok (join_lines [ py "Page 1:"; py " Cells" ]).
Proof.
  exact (@extraction_agrees (pdf_with_pages [VStr (py " Cells ")])
           (VStr (py "JVBERi0=")) [] eq_refl).
Defined.

(** * Further properties of the cleaner *)

Open Scope N_scope.

(** X19.  Whatever the text, a cleaned text has no whitespace at either end,
    and the whitespace inside it is single spaces.  (For the case tables as
    in [upper_settles].) *)
Theorem cleaned_text_is_tidy (U : Unicode) (x y : pystr) :
  upper_settles U ->
  clean_response U (VStr x) = VStr y ->
  strip y = y /\ squeezed y = true.
Proof.
  intros HU H.
  assert (Ht : tidy y).
  { destruct x as [|c x]; cbn [clean_response truthy] in H; inversion H; subst.
    - repeat split.
    - unfold clean_text. apply tidy_capitalize, tidy_collapse. exact HU. }
  destruct Ht as (H1 & H2 & H3). split; [|exact H1].
  unfold strip. rewrite (lstrip_fixed _ H2). apply rstrip_fixed, H3.
Qed.

Lemma cleaned_text_is_tidy_witness :
  strip (py "A plan: do it") = py "A plan: do it"
  /\ squeezed (py "A plan: do it") = true.
Proof.
  apply (@cleaned_text_is_tidy ascii_only
           (py "  a   plan:" ++ [9; 10] ++ py " do <b>it</b>  ")
           (py "A plan: do it") ascii_only_settles).
  vm_compute. reflexivity.
Defined.

(** X20.  A text that is already clean stays as it is: a text without
    whitespace at its ends and with single spaces inside, without [<], that
    does not start with a lower-case character nor with h, b, t or i in
    either case, is returned unchanged. *)
Theorem clean_text_is_kept (U : Unicode) (y : pystr) :
  tidy y ->
  ~ In 60 y ->
  match y with
  | c :: _ => filler_initial c = false /\ islower U c = false
  | [] => True
  end ->
  clean_response U (VStr y) = VStr y.
Proof.
  intros Ht Hlt Hc. destruct y as [|c y]; [reflexivity|].
  destruct Hc as [Hf Hl]. cbn [clean_response truthy]. unfold clean_text.
  rewrite (@plain_text_settled (c :: y) Hlt Hf), (collapse_fixed Ht).
  cbn [capitalize_first]. rewrite Hl. reflexivity.
Qed.

Lemma clean_text_is_kept_witness :
  clean_response ascii_only (VStr (py "Answer: 4")) = VStr (py "Answer: 4").
Proof.
  apply (@clean_text_is_kept ascii_only (py "Answer: 4")).
  - repeat split.
  - intros H; vm_compute in H; intuition discriminate.
  - split; reflexivity.
Defined.

(** The lazy [.*?] before a continuation: the continuation is tried here
    first, then one character further. *)
Lemma rmatch_lazy_dot (n : nat) (k : regex) (c : codepoint) (t : pystr) :
  rmatch re_flags n (Seq (StarLazy Dot) k) (c :: t)
  = rmatch re_flags n k (c :: t) ++ rmatch re_flags n (Seq (StarLazy Dot) k) t.
Proof.
  cbn [rmatch List.length star_iter flat_map dot_match DOTALL re_flags orb].
  rewrite app_nil_r.
  replace (List.length t <? S (List.length t))%nat with true
    by (symmetry; apply Nat.ltb_lt; lia).
  reflexivity.
Qed.

(** Over characters at which the continuation cannot start, [.*?] moves
    on. *)
Lemma rmatch_lazy_skip (n : nat) (k : regex) (b s : pystr) :
  (forall c t, In c b -> rmatch re_flags n k (c :: t) = []) ->
  rmatch re_flags n (Seq (StarLazy Dot) k) (b ++ s)
  = rmatch re_flags n (Seq (StarLazy Dot) k) s.
Proof.
  induction b as [|c b IH]; intros H; [reflexivity|].
  rewrite <- app_comm_cons, rmatch_lazy_dot, (H c (b ++ s) (or_introl eq_refl)).
  apply IH. intros d t Hd; apply H; right; assumption.
Qed.

(** A match at the head of the scan is replaced and the scan goes on behind
    it. *)
Lemma sub_scan_match (fl : flags) (n : nat) (r : regex) (repl a rest : pystr)
    (tl : list pystr) :
  a <> [] ->
  rmatch fl n r (a ++ rest) = rest :: tl ->
  sub_scan fl n r repl 0 (a ++ rest) = repl ++ sub_scan fl n r repl 0 rest.
Proof.
  intros Ha Hm. destruct a as [|c a]; [congruence|].
  rewrite <- app_comm_cons in *. rewrite sub_scan_cons, Hm.
  replace (List.length (c :: a ++ rest) - List.length rest)%nat
    with (S (List.length a)) by (cbn [List.length]; rewrite length_app; lia).
  rewrite sub_scan_skip by (rewrite length_app; lia).
  rewrite skipn_app, skipn_all, Nat.sub_diag. reflexivity.
Qed.

Lemma lits_needs_lt (n : nat) (w : pystr) (c : codepoint) (t : pystr) :
  c <> 60 -> rmatch re_flags n (lits (60 :: w)) (c :: t) = [].
Proof.
  intros Hc. cbn [lits]. apply rmatch_seq_nil, rmatch_lit_false, lit_lt, Hc.
Qed.

(** The first pattern on a block: an opening tag, a text without [<], a
    closing tag. *)
Lemma thinking_block_head (n : nat) (o b cl rest : pystr) :
  map ascii_lower o = py "<thinking>" ->
  ~ In 60 b ->
  map ascii_lower cl = py "</thinking>" ->
  exists tl,
    rmatch re_flags n thinking_block ((o ++ b ++ cl) ++ rest) = rest :: tl.
Proof.
  intros Ho Hb Hc. unfold thinking_block.
  rewrite <- !app_assoc.
  assert (E1 : forall k s, rmatch re_flags n (Seq (lits (py "<thinking>")) k) (o ++ s)
                           = rmatch re_flags n k s).
  { intros k s.
    let r := eval vm_compute in (lits (py "<thinking>")) in
      change (lits (py "<thinking>")) with r.
    explode o Ho. cbn [app]. match_steps. reflexivity. }
  rewrite E1.
  rewrite rmatch_lazy_skip
    by (intros c t Hin; apply (@lits_needs_lt n (py "/thinking>"));
        intros ->; contradiction).
  assert (E2 : rmatch re_flags n (lits (py "</thinking>")) (cl ++ rest) = [rest]).
  { let r := eval vm_compute in (lits (py "</thinking>")) in
      change (lits (py "</thinking>")) with r.
    explode cl Hc. cbn [app]. match_steps. reflexivity. }
  destruct cl as [|c cl]; [discriminate Hc|].
  rewrite <- app_comm_cons in *. rewrite rmatch_lazy_dot, E2.
  eexists; reflexivity.
Qed.

Lemma thinking_block_cut (pre o b cl rest : pystr) :
  ~ In 60 pre ->
  map ascii_lower o = py "<thinking>" ->
  ~ In 60 b ->
  map ascii_lower cl = py "</thinking>" ->
  re_sub re_flags thinking_block [] (pre ++ (o ++ b ++ cl) ++ rest)
  = re_sub re_flags thinking_block [] (pre ++ rest).
Proof.
  intros Hpre Ho Hb Hc.
  assert (Hp : forall n c s, In c pre -> rmatch re_flags n thinking_block (c :: s) = []).
  { intros n c s Hin. apply thinking_block_needs_lt. intros ->; contradiction. }
  rewrite !(@re_sub_prefix re_flags thinking_block [] pre) by (auto; reflexivity).
  f_equal. unfold re_sub.
  destruct (@thinking_block_head (List.length ((o ++ b ++ cl) ++ rest))
              o b cl rest Ho Hb Hc) as [tl E].
  rewrite (@sub_scan_match re_flags _ thinking_block [] (o ++ b ++ cl) rest tl).
  - cbn [app]. apply sub_scan_bol_free. reflexivity.
  - destruct o; [discriminate Ho | discriminate].
  - exact E.
Qed.

(** X21.  A block from an opening tag [<thinking>] to the next closing tag
    [</thinking>], the tags in any letter case and the text between them
    free of [<] but with newlines or anything else, is removed whole: the
    text is cleaned as if the block were not there. *)
Theorem thinking_block_removed (U : Unicode) (pre o b cl rest : pystr) :
  ~ In 60 pre ->
  map ascii_lower o = py "<thinking>" ->
  ~ In 60 b ->
  map ascii_lower cl = py "</thinking>" ->
  clean_response U (VStr (pre ++ (o ++ b ++ cl) ++ rest))
  = clean_response U (VStr (pre ++ rest)).
Proof.
  intros Hpre Ho Hb Hc.
  assert (E : clean_text U (pre ++ (o ++ b ++ cl) ++ rest) = clean_text U (pre ++ rest)).
  { unfold clean_text, apply_patterns.
    cbn [fold_left patterns_to_remove fst snd].
    rewrite (@thinking_block_cut pre o b cl rest Hpre Ho Hb Hc). reflexivity. }
  assert (Hne : exists c s, pre ++ (o ++ b ++ cl) ++ rest = c :: s).
  { destruct pre as [|c pre]; [|do 2 eexists; reflexivity].
    destruct o as [|c o]; [discriminate Ho | do 2 eexists; reflexivity]. }
  destruct Hne as (c & s & Hcs).
  rewrite Hcs in *. cbn [clean_response truthy]. rewrite E.
  destruct (pre ++ rest); reflexivity.
Qed.

Lemma thinking_block_removed_witness :
  clean_response ascii_only
    (VStr ([] ++ (py "<THINKING>" ++ (py "secret" ++ [10] ++ py "plan") ++ py "</Thinking>")
              ++ py "Answer: 4"))
  = VStr (py "Answer: 4").
Proof.
  refine (eq_trans
            (@thinking_block_removed ascii_only [] (py "<THINKING>")
               (py "secret" ++ [10] ++ py "plan") (py "</Thinking>")
               (py "Answer: 4") _ _ _ _) _);
    try reflexivity.
  - intros H; exact H.
  - intros H; vm_compute in H; intuition discriminate.
Defined.

(** * Further properties of the quiz parser *)

Lemma nonempty_app_l (a b : pystr) : nonempty a = true -> nonempty (a ++ b) = true.
Proof. destruct a; [discriminate | reflexivity]. Qed.

(** While no line opens question 1 again, the lines go to the block. *)
Lemma quiz_lines_gather (rest : list pystr) (block : pystr) :
  nonempty block = true ->
  forallb (fun raw => negb (opens_first raw)) rest = true ->
  fold_left quiz_line rest
    {| questions := []; current_question := block; question_number := 1 |}
  = {| questions := []; current_question := fold_left add_line rest block;
       question_number := 1 |}.
Proof.
  revert block; induction rest as [|raw rest IH]; intros block Hb H; [reflexivity|].
  cbn [forallb] in H. apply andb_true_iff in H as [Hr Hrest].
  apply negb_true_iff in Hr. cbn [fold_left].
  assert (E : quiz_line {| questions := []; current_question := block;
                           question_number := 1 |} raw
              = {| questions := []; current_question := add_line block raw;
                   question_number := 1 |}).
  { unfold quiz_line, add_line, opens_first in *.
    cbn [question_number current_question questions].
    change (str_of_N 1 ++ py ".") with (py "1.").
    change (str_of_N 1 ++ py " ") with (py "1 ").
    rewrite Hr, Hb. cbn [andb].
    destruct (nonempty (strip raw)); reflexivity. }
  rewrite E. apply IH; [|exact Hrest].
  unfold add_line. destruct (nonempty (strip raw)); [apply nonempty_app_l|]; exact Hb.
Qed.

(** X23.  When one line of the text opens question 1 (stripped, it starts
    with "1." or "1 ") and no other line does, the parser returns a single
    entry Q1: the stripped opening line followed by every later non-blank
    line, stripped, each after one space.  Lines before the opening line are
    dropped, and lines numbered 2., 3., ... do not start a new entry. *)
Theorem parse_gathers_one_block (s : pystr) (before after : list pystr)
    (first : pystr) :
  split_on 10%N s = before ++ first :: after ->
  forallb (fun raw => negb (opens_first raw)) before = true ->
  opens_first first = true ->
  forallb (fun raw => negb (opens_first raw)) after = true ->
  _parse_quiz_questions (VStr s)
  = [ (py "Q1", VStr (strip (fold_left add_line after (strip first)))) ].
Proof.
  intros Hs Hb Hf Ha. unfold _parse_quiz_questions.
  rewrite Hs, fold_left_app, (quiz_lines_idle _ Hb). cbn [fold_left].
  assert (Hn : nonempty (strip first) = true).
  { unfold opens_first in Hf. apply andb_true_iff in Hf; tauto. }
  assert (E : quiz_line quiz_start first
              = {| questions := []; current_question := strip first;
                   question_number := 1 |}).
  { unfold quiz_line, opens_first in *.
    cbn [question_number current_question questions quiz_start].
    change (str_of_N 1 ++ py ".") with (py "1.").
    change (str_of_N 1 ++ py " ") with (py "1 ").
    rewrite Hf. reflexivity. }
  rewrite E, (@quiz_lines_gather after (strip first) Hn Ha).
  unfold quiz_finish. cbn [current_question questions question_number].
  assert (Hne : nonempty (fold_left add_line after (strip first)) = true).
  { clear - Hn. revert Hn. generalize (strip first) as block.
    induction after as [|raw after IH]; intros block Hb; [exact Hb|].
    cbn [fold_left]. apply IH. unfold add_line.
    destruct (nonempty (strip raw)); [apply nonempty_app_l|]; exact Hb. }
  rewrite Hne. reflexivity.
Qed.

Lemma parse_gathers_one_block_witness :
  _parse_quiz_questions
    (VStr (join_lines [ py "Quiz"; py " 1. Q one"; []; py "A) x"; py "2. Q two" ]))
  = [ (py "Q1", VStr (py "1. Q one A) x 2. Q two")) ].
Proof.
  refine (eq_trans
            (@parse_gathers_one_block
               (join_lines [ py "Quiz"; py " 1. Q one"; []; py "A) x"; py "2. Q two" ])
               [ py "Quiz" ] [ []; py "A) x"; py "2. Q two" ] (py " 1. Q one")
               _ _ _ _) _);
    vm_compute; reflexivity.
Defined.

(** * More on the cleaner *)

Lemma space_is_no_initial (c : codepoint) : isspace c = true -> filler_initial c = false.
Proof.
  intros Hs. unfold filler_initial. cbn [existsb]. rewrite !lit_match_ci.
  change (sre_lower 72) with 104. change (sre_lower 66) with 98.
  change (sre_lower 84) with 116. change (sre_lower 73) with 105.
  change (104 =? 105) with false. change (104 =? 115) with false.
  change (98 =? 105) with false. change (98 =? 115) with false.
  change (116 =? 105) with false. change (116 =? 115) with false.
  change (105 =? 105) with true. change (105 =? 115) with false.
  cbn [andb orb]. rewrite !orb_false_r.
  assert (Hc : c <= 32 \/ 133 <= c).
  { destruct (N.le_gt_cases c 32) as [H|H]; [left; exact H|].
    destruct (N.le_gt_cases 133 c) as [H'|H']; [right; exact H'|].
    rewrite isspace_false in Hs by lia. discriminate Hs. }
  destruct (sre_lower_cases c) as [[H E]|[[H E]|[[H E]|(H & H1 & H2 & E)]]].
  - lia.
  - subst c. discriminate Hs.
  - subst c. discriminate Hs.
  - rewrite E.
    assert (c <> 305) by (intros ->; discriminate Hs).
    repeat match goal with
           | |- context [?a =? c] => destruct (N.eqb_spec a c); [lia|]
           | |- context [c =? ?a] => destruct (N.eqb_spec c a); [lia|]
           end.
    reflexivity.
Qed.

Lemma squeeze_blank (x : pystr) :
  forallb isspace x = true -> strip (squeeze x) = [].
Proof.
  intros H. destruct x as [|c t]; [reflexivity|].
  cbn [forallb] in H. apply andb_true_iff in H as [Hc Ht].
  rewrite (@squeeze_space c t Hc), (lstrip_blank _ Ht). reflexivity.
Qed.

(** X24.  A text of whitespace only is cleaned to the empty string. *)
Theorem blank_text_cleaned_to_empty (U : Unicode) (x : pystr) :
  forallb isspace x = true ->
  clean_response U (VStr x) = VStr [].
Proof.
  intros H. destruct x as [|c t]; [reflexivity|].
  cbn [clean_response truthy]. unfold clean_text.
  assert (Hlt : ~ In 60 (c :: t)).
  { intros Hin. rewrite forallb_forall in H. apply H in Hin. discriminate Hin. }
  assert (Hi : filler_initial c = false).
  { apply space_is_no_initial. cbn [forallb] in H. apply andb_true_iff in H; tauto. }
  rewrite (@plain_text_settled (c :: t) Hlt Hi).
  unfold collapse_whitespace. fold (squeeze (c :: t)).
  rewrite (squeeze_blank _ H). reflexivity.
Qed.

Lemma blank_text_cleaned_to_empty_witness :
  clean_response ascii_only (VStr [32; 10; 9; 160; 8195]) = VStr [].
Proof.
  apply (@blank_text_cleaned_to_empty ascii_only [32; 10; 9; 160; 8195]).
  reflexivity.
Defined.

(** X25.  A cleaned text never starts with one of the letters a to z.  (For
    the case tables as in [upper_settles].) *)
Theorem cleaned_text_not_lower_initial (U : Unicode) (x y : pystr) (c : codepoint) :
  upper_settles U ->
  clean_response U (VStr x) = VStr (c :: y) ->
  ascii_islower c = false.
Proof.
  intros HU H.
  assert (Hlow : forall d, ascii_islower d = true ->
                           islower U d = true /\ upper U d <> [d]).
  { intros d Hd.
    assert (Hr : 97 <= d <= 122)
      by (unfold ascii_islower, between in Hd; bool_to_prop Hd; lia).
    assert (Ha : is_ascii d = true) by (unfold is_ascii; apply N.ltb_lt; lia).
    unfold islower, upper. rewrite Ha. split; [exact Hd|].
    unfold ascii_upper. rewrite Hd. intros E. inversion E. lia. }
  destruct (ascii_islower c) eqn:Ec; [|reflexivity]. exfalso.
  destruct (Hlow c Ec) as [Hl Hu].
  destruct x as [|a x]; [discriminate H|].
  cbn [clean_response truthy] in H. inversion H as [E]. clear H.
  unfold clean_text in E.
  destruct (collapse_whitespace (apply_patterns (a :: x))) as [|w ws];
    [discriminate E|].
  cbn [capitalize_first] in E. destruct (islower U w) eqn:Ew.
  - destruct (upper_of_lower HU w Ew) as (d & ds & Eu & _ & Hd).
    rewrite Eu in E. inversion E; subst. apply Hu, Hd, Hl.
  - inversion E; subst. congruence.
Qed.

Lemma cleaned_text_not_lower_initial_witness :
  clean_response ascii_only (VStr (py " <i>plants</i> use light"))
  = VStr (py "Plants use light")
  /\ ascii_islower 80 = false.
Proof.
  assert (E : clean_response ascii_only (VStr (py " <i>plants</i> use light"))
              = VStr (80%N :: py "lants use light"))
    by (vm_compute; reflexivity).
  split; [exact E|].
  exact (@cleaned_text_not_lower_initial ascii_only
           (py " <i>plants</i> use light") (py "lants use light") 80%N
           ascii_only_settles E).
Defined.

Lemma lower_not_lt (c l : codepoint) : ascii_lower c = l -> l <> 60 -> c <> 60.
Proof. intros H Hl ->. apply Hl. rewrite <- H. reflexivity. Qed.

(** Copies the characters of an exploded tag at which the first pattern
    cannot start. *)
Ltac copy_plain :=
  repeat (rewrite sub_scan_cons;
          rewrite thinking_block_needs_lt
            by (eapply lower_not_lt; [eassumption | intros D; discriminate D])).

(** The first pattern leaves the tags of a reasoning block alone. *)
Lemma thinking_skips_reasoning_tag (n : nat) (tag s : pystr) :
  map ascii_lower tag = py "<reasoning>" \/ map ascii_lower tag = py "</reasoning>" ->
  sub_scan re_flags n thinking_block [] 0 (tag ++ s)
  = tag ++ sub_scan re_flags n thinking_block [] 0 s.
Proof.
  intros [H|H]; explode tag H; cbn [app]; rewrite sub_scan_cons.
  - assert (E : rmatch re_flags n thinking_block
                  (c :: c0 :: c1 :: c2 :: c3 :: c4 :: c5 :: c6 :: c7 :: c8 :: c9 :: s) = []).
    { let r := eval vm_compute in thinking_block in change thinking_block with r.
      match_steps. reflexivity. }
    rewrite E. copy_plain. reflexivity.
  - assert (E : rmatch re_flags n thinking_block
                  (c :: c0 :: c1 :: c2 :: c3 :: c4 :: c5 :: c6 :: c7 :: c8 :: c9
                     :: c10 :: s) = []).
    { let r := eval vm_compute in thinking_block in change thinking_block with r.
      match_steps. reflexivity. }
    rewrite E. copy_plain. reflexivity.
Qed.

Lemma reasoning_block_head (n : nat) (o b cl rest : pystr) :
  map ascii_lower o = py "<reasoning>" ->
  ~ In 60 b ->
  map ascii_lower cl = py "</reasoning>" ->
  exists tl,
    rmatch re_flags n reasoning_block ((o ++ b ++ cl) ++ rest) = rest :: tl.
Proof.
  intros Ho Hb Hc. unfold reasoning_block.
  rewrite <- !app_assoc.
  assert (E1 : forall k s, rmatch re_flags n (Seq (lits (py "<reasoning>")) k) (o ++ s)
                           = rmatch re_flags n k s).
  { intros k s.
    let r := eval vm_compute in (lits (py "<reasoning>")) in
      change (lits (py "<reasoning>")) with r.
    explode o Ho. cbn [app]. match_steps. reflexivity. }
  rewrite E1.
  rewrite rmatch_lazy_skip
    by (intros c t Hin; apply (@lits_needs_lt n (py "/reasoning>"));
        intros ->; contradiction).
  assert (E2 : rmatch re_flags n (lits (py "</reasoning>")) (cl ++ rest) = [rest]).
  { let r := eval vm_compute in (lits (py "</reasoning>")) in
      change (lits (py "</reasoning>")) with r.
    explode cl Hc. cbn [app]. match_steps. reflexivity. }
  destruct cl as [|c cl]; [discriminate Hc|].
  rewrite <- app_comm_cons in *. rewrite rmatch_lazy_dot, E2.
  eexists; reflexivity.
Qed.

(** The first two rewrites on a text with a reasoning block. *)
Lemma reasoning_block_cut (pre o b cl rest : pystr) :
  ~ In 60 pre ->
  map ascii_lower o = py "<reasoning>" ->
  ~ In 60 b ->
  map ascii_lower cl = py "</reasoning>" ->
  re_sub re_flags reasoning_block []
    (re_sub re_flags thinking_block [] (pre ++ (o ++ b ++ cl) ++ rest))
  = re_sub re_flags reasoning_block []
      (re_sub re_flags thinking_block [] (pre ++ rest)).
Proof.
  intros Hpre Ho Hb Hc.
  assert (Hp1 : forall n c s, In c pre -> rmatch re_flags n thinking_block (c :: s) = []).
  { intros n c s Hin. apply thinking_block_needs_lt. intros ->; contradiction. }
  assert (Hp2 : forall n c s, In c pre -> rmatch re_flags n reasoning_block (c :: s) = []).
  { intros n c s Hin. apply reasoning_block_needs_lt. intros ->; contradiction. }
  assert (Hb1 : forall n c s, In c b -> rmatch re_flags n thinking_block (c :: s) = []).
  { intros n c s Hin. apply thinking_block_needs_lt. intros ->; contradiction. }
  rewrite !(@re_sub_prefix re_flags thinking_block [] pre) by (auto; reflexivity).
  rewrite !(@re_sub_prefix re_flags reasoning_block [] pre) by (auto; reflexivity).
  f_equal.
  set (t := re_sub re_flags thinking_block [] rest).
  assert (E : re_sub re_flags thinking_block [] ((o ++ b ++ cl) ++ rest)
              = (o ++ b ++ cl) ++ t).
  { unfold re_sub. rewrite <- !app_assoc.
    rewrite thinking_skips_reasoning_tag by (left; exact Ho).
    rewrite sub_scan_prefix by (intros; apply Hb1; assumption).
    rewrite thinking_skips_reasoning_tag by (right; exact Hc).
    subst t. unfold re_sub.
    rewrite (@sub_scan_bol_free re_flags _ (List.length rest) thinking_block [] 0 rest)
      by reflexivity.
    reflexivity. }
  rewrite E. unfold re_sub.
  destruct (@reasoning_block_head (List.length ((o ++ b ++ cl) ++ t))
              o b cl t Ho Hb Hc) as [tl Em].
  rewrite (@sub_scan_match re_flags _ reasoning_block [] (o ++ b ++ cl) t tl).
  - cbn [app]. apply sub_scan_bol_free. reflexivity.
  - destruct o; [discriminate Ho | discriminate].
  - exact Em.
Qed.

(** X22.  The same for a block from [<reasoning>] to the next
    [</reasoning>]: it is removed whole by the second rewrite, and the first
    one does not touch it. *)
Theorem reasoning_block_removed (U : Unicode) (pre o b cl rest : pystr) :
  ~ In 60 pre ->
  map ascii_lower o = py "<reasoning>" ->
  ~ In 60 b ->
  map ascii_lower cl = py "</reasoning>" ->
  clean_response U (VStr (pre ++ (o ++ b ++ cl) ++ rest))
  = clean_response U (VStr (pre ++ rest)).
Proof.
  intros Hpre Ho Hb Hc.
  assert (E : clean_text U (pre ++ (o ++ b ++ cl) ++ rest) = clean_text U (pre ++ rest)).
  { unfold clean_text, apply_patterns.
    cbn [fold_left patterns_to_remove fst snd].
    rewrite (@reasoning_block_cut pre o b cl rest Hpre Ho Hb Hc). reflexivity. }
  assert (Hne : exists c s, pre ++ (o ++ b ++ cl) ++ rest = c :: s).
  { destruct pre as [|c pre]; [|do 2 eexists; reflexivity].
    destruct o as [|c o]; [discriminate Ho | do 2 eexists; reflexivity]. }
  destruct Hne as (c & s & Hcs).
  rewrite Hcs in *. cbn [clean_response truthy]. rewrite E.
  destruct (pre ++ rest); reflexivity.
Qed.

Lemma reasoning_block_removed_witness :
  clean_response ascii_only
    (VStr (py "Sure. " ++ (py "<Reasoning>" ++ py "2+2 = 4" ++ py "</REASONING>")
              ++ py " four"))
  = VStr (py "Sure. four").
Proof.
  refine (eq_trans
            (@reasoning_block_removed ascii_only (py "Sure. ") (py "<Reasoning>")
               (py "2+2 = 4") (py "</REASONING>") (py " four") _ _ _ _) _);
    try reflexivity;
    intros H; vm_compute in H; intuition discriminate.
Defined.

(** * More on the quiz parser *)

Lemma quiz_line_keeps_block (st : quiz_state) (raw : pystr) :
  nonempty (current_question st) = true ->
  nonempty (current_question (quiz_line st raw)) = true.
Proof.
  intros H. unfold quiz_line. cbv zeta.
  destruct (nonempty (strip raw)) eqn:En; cbn [andb].
  - destruct (startswith (strip raw) (str_of_N (question_number st) ++ py ".")
              || startswith (strip raw) (str_of_N (question_number st) ++ py " ")).
    + rewrite H. cbn [current_question]. exact En.
    + rewrite H. cbn [andb current_question]. apply nonempty_app_l, H.
  - rewrite andb_false_r. exact H.
Qed.

Lemma quiz_lines_keep_block (ls : list pystr) (st : quiz_state) :
  nonempty (current_question st) = true ->
  nonempty (current_question (fold_left quiz_line ls st)) = true.
Proof.
  revert st; induction ls as [|l ls IH]; intros st H; [exact H|].
  cbn [fold_left]. apply IH, quiz_line_keeps_block, H.
Qed.

Lemma dict_set_nonempty (d : pydict) (k : pystr) (v : pyval) : dict_set d k v <> [].
Proof. destruct d as [|[k' w] d]; cbn [dict_set]; [|destruct (pystr_eqb k' k)]; discriminate. Qed.

(** The first line that opens question 1, if there is one. *)
Lemma first_opening_line (ls : list pystr) :
  forallb (fun raw => negb (opens_first raw)) ls = false ->
  exists before first after,
    ls = before ++ first :: after
    /\ forallb (fun raw => negb (opens_first raw)) before = true
    /\ opens_first first = true.
Proof.
  induction ls as [|l ls IH]; [discriminate|].
  cbn [forallb]. destruct (opens_first l) eqn:E.
  - intros _. exists [], l, ls. repeat split. exact E.
  - cbn [negb andb]. intros H. destruct (IH H) as (b & f & a & -> & Hb & Hf).
    exists (l :: b), f, a. repeat split; [|exact Hf].
    cbn [forallb]. rewrite E, Hb. reflexivity.
Qed.

(** X26.  The parser returns the empty dictionary exactly when no line of
    the text opens question 1, that is, when no line, stripped, starts with
    "1." or "1 ": a quiz whose questions are numbered "Q1.", "Q2.", ... as
    the prompt asks gives no entry. *)
Theorem parse_empty_iff_no_opening_line (s : pystr) :
  _parse_quiz_questions (VStr s) = []
  <-> forallb (fun raw => negb (opens_first raw)) (split_on 10%N s) = true.
Proof.
  split; [|apply parse_without_first_question].
  intros H.
  destruct (forallb (fun raw => negb (opens_first raw)) (split_on 10%N s)) eqn:E;
    [reflexivity|exfalso].
  destruct (first_opening_line _ E) as (b & f & a & Hs & Hb & Hf).
  unfold _parse_quiz_questions in H.
  rewrite Hs, fold_left_app, (quiz_lines_idle _ Hb) in H. cbn [fold_left] in H.
  assert (Hn : nonempty (current_question (quiz_line quiz_start f)) = true).
  { unfold quiz_line, opens_first in *.
    cbn [question_number current_question questions quiz_start].
    change (str_of_N 1 ++ py ".") with (py "1.").
    change (str_of_N 1 ++ py " ") with (py "1 ").
    rewrite Hf. cbn [current_question]. apply andb_true_iff in Hf; tauto. }
  pose proof (quiz_lines_keep_block a _ Hn) as Hk.
  unfold quiz_finish in H. rewrite Hk in H.
  exact (dict_set_nonempty _ _ _ H).
Qed.
